(** * The dashboard's WebSocket message handler

    A shallow embedding of [ws.onmessage] of
    [frontend/src/app/dashboard/page.tsx]: the React state it maintains
    ([transcripts], [activeCalls]), the five message types it dispatches on,
    and the array and object operations it uses. *)

From Stdlib Require Import ZArith Floats Ascii String Sorted Permutation.
From stdpp Require Import gmap strings list pretty.

Set Warnings "-register-all,-inexact-float".
Local Open Scope Z_scope.

(** ** JSON values

    What [JSON.parse] returns. Numbers are binary64 floats, objects are
    finite maps from property names to values. *)

Inductive json : Type :=
| JNull
| JBool (b : bool)
| JNum (n : float)
| JStr (s : string)
| JArr (l : list json)
| JObj (m : gmap string json).

(** A JavaScript value read out of a parsed message: a JSON value, or
    [undefined] (the result of reading a property that is not there). *)
Inductive value : Type :=
| undefined
| val (j : json).

(** ** The types of [page.tsx] *)

Module TranscriptEntry.
Record t : Type := mk {
  id : string;
  role : string;
  transcript : string;
  timestamp : string;
  call_id : string;
  confidence : float
}.
End TranscriptEntry.
Abbreviation TranscriptEntry := TranscriptEntry.t.

Module CallSession.
Record t : Type := mk {
  call_id : string;
  status : string;
  start_time : string;
  participants : gmap string json;
  metadata : gmap string json
}.
End CallSession.
Abbreviation CallSession := CallSession.t.

(** The [data] payload of a [call_status] message. *)
Module CallStatusData.
Record t : Type := mk {
  call_id : string;
  session : CallSession
}.
End CallStatusData.

(** The [data] payload of a [call_removed] message. *)
Module CallRemovedData.
Record t : Type := mk {
  call_id : string
}.
End CallRemovedData.

(** [WebSocketMessage]: the [type] tag with the optional fields that the
    handler reads for it ([data?], [transcripts?], [active_calls?]). *)
Inductive WebSocketMessage : Type :=
| initial_data (transcripts : option (list TranscriptEntry))
               (active_calls : option (gmap string CallSession))
| transcript (data : option TranscriptEntry)
| call_status (data : option CallStatusData.t)
| call_removed (data : option CallRemovedData.t)
| transcripts_cleared.

(** The two pieces of React state the handler writes. *)
Record State : Type := mkState {
  transcripts : list TranscriptEntry;
  activeCalls : gmap string CallSession
}.

(** [useState([])] and [useState({})]. *)
Definition initialState : State :=
  {| transcripts := []; activeCalls := ∅ |}.

Definition setTranscripts (f : list TranscriptEntry -> list TranscriptEntry)
    (st : State) : State :=
  {| transcripts := f (transcripts st); activeCalls := activeCalls st |}.

Definition setActiveCalls
    (f : gmap string CallSession -> gmap string CallSession)
    (st : State) : State :=
  {| transcripts := transcripts st; activeCalls := f (activeCalls st) |}.

(** ** Numbers, strings and arrays of the JavaScript runtime *)

(** A time value, or [NaN] ([None]). Time values are integers of magnitude
    at most 8.64e15, so the sign of a difference of two of them and its
    comparison with 1000 are the same over [Z] as over binary64. *)
Definition number : Type := option Z.

Definition Number_sub (a b : number) : number :=
  match a, b with
  | Some x, Some y => Some (x - y)
  | _, _ => None
  end.

Definition Math_abs (a : number) : number :=
  match a with
  | Some x => Some (Z.abs x)
  | None => None
  end.

(** [a < n]: false when [a] is [NaN]. *)
Definition Number_lt (a : number) (n : Z) : bool :=
  match a with
  | Some x => x <? n
  | None => false
  end.

(** A string is truthy when it is not empty. *)
Definition truthy_string (s : string) : bool :=
  negb (String.eqb s "").

Definition lower_ascii (c : ascii) : ascii :=
  let n := nat_of_ascii c in
  if ((65 <=? n) && (n <=? 90))%nat then ascii_of_nat (n + 32) else c.

(** [String.prototype.toLowerCase] on the ASCII range. The handler only
    compares the result with ['ended'] and ['failed']; no character outside
    ASCII lower-cases to a letter of these. *)
Fixpoint toLowerCase (s : string) : string :=
  match s with
  | EmptyString => EmptyString
  | String c s' => String (lower_ascii c) (toLowerCase s')
  end.

Section Arrays.
Context {A : Type}.

(** [arr.some(p)] *)
Definition Array_some (p : A -> bool) (arr : list A) : bool :=
  existsb p arr.

(** [arr.slice(start)]: a negative [start] counts from the end. *)
Definition Array_slice (start : Z) (arr : list A) : list A :=
  let len := Z.of_nat (length arr) in
  let k := if start <? 0 then Z.max (len + start) 0 else Z.min start len in
  drop (Z.to_nat k) arr.

Fixpoint findIndex_from (p : A -> bool) (index : Z) (l : list A) : Z :=
  match l with
  | [] => -1
  | x :: l' => if p x then index else findIndex_from p (index + 1) l'
  end.

(** [arr.findIndex(p)]: the first index whose element satisfies [p],
    or -1. *)
Definition Array_findIndex (p : A -> bool) (arr : list A) : Z :=
  findIndex_from p 0 arr.

Fixpoint filter_from (f : A -> Z -> bool) (index : Z) (l : list A) : list A :=
  match l with
  | [] => []
  | x :: l' =>
      if f x index then x :: filter_from f (index + 1) l'
      else filter_from f (index + 1) l'
  end.

(** [arr.filter((element, index, arr) => f element index arr)] *)
Definition Array_filter (f : A -> Z -> list A -> bool) (arr : list A) : list A :=
  filter_from (fun x i => f x i arr) 0 arr.

(** [arr.sort(comparefn)]. ECMAScript (2019 and later) asks for a stable
    sort, reads a [NaN] returned by [comparefn] as [+0], and leaves the
    order to the implementation when [comparefn] is not a consistent
    comparator. The stable insertion sort below is the order every
    implementation produces for a consistent comparator. *)
Definition SortCompare (comparefn : A -> A -> number) (x y : A) : Z :=
  match comparefn x y with
  | Some v => v
  | None => 0
  end.

Fixpoint sort_insert (comparefn : A -> A -> number) (x : A) (l : list A) : list A :=
  match l with
  | [] => [x]
  | y :: l' =>
      if 0 <? SortCompare comparefn x y then y :: sort_insert comparefn x l'
      else x :: l
  end.

Definition Array_sort (comparefn : A -> A -> number) (arr : list A) : list A :=
  foldr (sort_insert comparefn) [] arr.

(** The order of a key. *)
Definition key_le (key : A -> Z) (a b : A) : Prop := key a <= key b.

End Arrays.

(** ** The handler *)

Section Handler.

(** [Date.parse]: the time value of a date string in milliseconds, [None]
    ([NaN]) when the runtime cannot read the string as a date. *)
Variable Date_parse : string -> number.

(** [new Date(timestamp).getTime()] *)
Definition getTime (timestamp : string) : number :=
  Date_parse timestamp.

(** The comparator of the [initial_data] case. *)
Definition by_timestamp (a b : TranscriptEntry) : number :=
  Number_sub (getTime (TranscriptEntry.timestamp a))
             (getTime (TranscriptEntry.timestamp b)).

(** [t => t.id === transcript.id] *)
Definition same_id (transcript t : TranscriptEntry) : bool :=
  String.eqb (TranscriptEntry.id t) (TranscriptEntry.id transcript).

(** [uniqueTranscripts] of the [initial_data] case: sorted, then each
    element kept when its index is the first one carrying its id. *)
Definition uniqueTranscripts (received : list TranscriptEntry) : list TranscriptEntry :=
  Array_filter
    (fun (transcript : TranscriptEntry) (index : Z) (arr : list TranscriptEntry) =>
       index =? Array_findIndex (same_id transcript) arr)
    (Array_sort by_timestamp received).

(** The predicate passed to [prev.some] in the [transcript] case. *)
Definition same_transcript (data t : TranscriptEntry) : bool :=
  String.eqb (TranscriptEntry.id t) (TranscriptEntry.id data)
  || (String.eqb (TranscriptEntry.transcript t) (TranscriptEntry.transcript data)
      && String.eqb (TranscriptEntry.role t) (TranscriptEntry.role data)
      && Number_lt
           (Math_abs (Number_sub (getTime (TranscriptEntry.timestamp t))
                                 (getTime (TranscriptEntry.timestamp data))))
           1000).

(** [exists] of the [transcript] case. *)
Definition exists_ (prev : list TranscriptEntry) (data : TranscriptEntry) : bool :=
  Array_some (same_transcript data) prev.

(** The updater passed to [setTranscripts] in the [transcript] case. *)
Definition add_transcript (data : TranscriptEntry)
    (prev : list TranscriptEntry) : list TranscriptEntry :=
  if exists_ prev data then prev
  else Array_slice (-50) (prev ++ [data]).

(** [callStatus === 'ended' || callStatus === 'failed'] *)
Definition call_over (session : CallSession) : bool :=
  let callStatus := toLowerCase (CallSession.status session) in
  String.eqb callStatus "ended" || String.eqb callStatus "failed".

(** [ws.onmessage] on a message of the declared type. *)
Definition onmessage (st : State) (message : WebSocketMessage) : State :=
  match message with
  | initial_data received active_calls =>
      let st1 :=
        match received with
        | Some received => setTranscripts (fun _ => uniqueTranscripts received) st
        | None => st
        end in
      match active_calls with
      | Some active_calls => setActiveCalls (fun _ => active_calls) st1
      | None => st1
      end
  | transcript (Some data) =>
      setTranscripts (add_transcript data) st
  | transcript None => st
  | call_status (Some data) =>
      let st1 :=
        setActiveCalls
          (fun prev => <[CallStatusData.call_id data := CallStatusData.session data]> prev)
          st in
      if call_over (CallStatusData.session data)
      then setTranscripts (fun _ => []) st1
      else st1
  | call_status None => st
  | call_removed (Some data) =>
      if truthy_string (CallRemovedData.call_id data)
      then
        setTranscripts (fun _ => [])
          (setActiveCalls
             (fun prev => let newCalls := prev in
                          delete (CallRemovedData.call_id data) newCalls)
             st)
      else st
  | call_removed None => st
  | transcripts_cleared =>
      setTranscripts (fun _ => []) st
  end.

(** The messages of a connection, handled in order. *)
Definition run (st : State) (messages : list WebSocketMessage) : State :=
  foldl onmessage st messages.

(** The transcript panel is rendered from
    [transcripts.sort(byTimestamp).slice(-15)] when [transcripts] is not
    empty: [sort] works in place, so a render leaves the array held in the
    state sorted. *)
Definition render (st : State) : State :=
  if (0 <? Z.of_nat (length (transcripts st)))
  then {| transcripts := Array_sort by_timestamp (transcripts st);
          activeCalls := activeCalls st |}
  else st.

(** One [transcript] message for each fragment. *)
Definition transcript_messages (fragments : list TranscriptEntry)
    : list WebSocketMessage :=
  map (fun f => transcript (Some f)) fragments.

(** The messages of a connection, with a render after each. *)
Definition run_rendered (st : State) (messages : list WebSocketMessage) : State :=
  foldl (fun st message => render (onmessage st message)) st messages.

(** ** The terms of the specification *)

(** Two timestamps that are less than one second apart. *)
Definition within_one_second (a b : TranscriptEntry) : Prop :=
  exists x y : Z,
    getTime (TranscriptEntry.timestamp a) = Some x /\
    getTime (TranscriptEntry.timestamp b) = Some y /\
    Z.abs (x - y) < 1000.

(** The deduplication policy, in the words of the specification: a
    candidate duplicates a retained record with the same id, or with the
    same role and text and a timestamp less than one second away. *)
Definition duplicate_of (candidate retained : TranscriptEntry) : Prop :=
  TranscriptEntry.id retained = TranscriptEntry.id candidate \/
  (TranscriptEntry.role retained = TranscriptEntry.role candidate /\
   TranscriptEntry.transcript retained = TranscriptEntry.transcript candidate /\
   within_one_second retained candidate).

Definition is_duplicate (candidate : TranscriptEntry)
    (retained : list TranscriptEntry) : Prop :=
  exists t, t ∈ retained /\ duplicate_of candidate t.

(** [a] is not later than [b], both timestamps being dates. *)
Definition ascending (a b : TranscriptEntry) : Prop :=
  exists x y : Z,
    getTime (TranscriptEntry.timestamp a) = Some x /\
    getTime (TranscriptEntry.timestamp b) = Some y /\
    x <= y.

(** Every timestamp of the list is a date. *)
Definition dated (l : list TranscriptEntry) : Prop :=
  Forall (fun x => is_Some (getTime (TranscriptEntry.timestamp x))) l.

(** The time value of a record, 0 standing in for an invalid date. *)
Definition time_of (x : TranscriptEntry) : Z :=
  default 0 (getTime (TranscriptEntry.timestamp x)).

(** The records of [l] whose id no record of [earlier] or earlier record
    of [l] carries: of the records with one id, the first is kept and the
    later ones are removed. *)
Fixpoint keep_first_ids_after (earlier l : list TranscriptEntry)
    : list TranscriptEntry :=
  match l with
  | [] => []
  | x :: l' =>
      if existsb (same_id x) earlier
      then keep_first_ids_after (earlier ++ [x]) l'
      else x :: keep_first_ids_after (earlier ++ [x]) l'
  end.

Definition keep_first_ids (l : list TranscriptEntry) : list TranscriptEntry :=
  keep_first_ids_after [] l.



(** A call session whose status is terminal. *)
Definition terminal (session : CallSession) : Prop :=
  toLowerCase (CallSession.status session) = "ended"%string \/
  toLowerCase (CallSession.status session) = "failed"%string.

End Handler.

(** ** The handler on what [JSON.parse] returns

    The type annotation [message: WebSocketMessage] is not checked at run
    time: the handler runs on whatever value the frame parses to. This
    module follows the same code on JSON values, with the exceptions that
    property reads and method calls raise and the [try]/[catch] around the
    handler's body. *)

Module Raw.

Inductive Error : Type :=
| SyntaxError
| TypeError.

(** An evaluation returns a value or throws. *)
Inductive result (A : Type) : Type :=
| Return (a : A)
| Throw (e : Error).
Arguments Return {A} a.
Arguments Throw {A} e.

Definition bind {A B : Type} (c : result A) (k : A -> result B) : result B :=
  match c with
  | Return a => k a
  | Throw e => Throw e
  end.

Notation "x <- c ;; k" := (bind c (fun x => k))
  (at level 100, c at next level, right associativity).

(** [v.k], for the property names the handler reads ([type], [data],
    [transcripts], [active_calls], [id], [transcript], [role], [timestamp],
    [session], [status], [call_id]): none of them is inherited from a
    prototype, so only an object's own property can provide one. Reading a
    property of [null] or [undefined] throws. *)
Definition get (v : value) (k : string) : result value :=
  match v with
  | undefined => Throw TypeError
  | val JNull => Throw TypeError
  | val (JObj m) =>
      Return (match m !! k with Some j => val j | None => undefined end)
  | val _ => Return undefined
  end.

(** [v?.k] *)
Definition get_optional (v : value) (k : string) : result value :=
  match v with
  | undefined => Return undefined
  | val JNull => Return undefined
  | _ => get v k
  end.

(** [ToBoolean] *)
Definition truthy (v : value) : bool :=
  match v with
  | undefined => false
  | val JNull => false
  | val (JBool b) => b
  | val (JNum n) => negb (PrimFloat.eqb n 0%float) && negb (PrimFloat.is_nan n)
  | val (JStr s) => truthy_string s
  | val (JArr _) => true
  | val (JObj _) => true
  end.

(** [a === b] for two values of which [same] tells whether they were read
    from the same place: arrays and objects are equal when they are the
    same object, and [JSON.parse] never shares one between two places. *)
Definition strict_equal_at (same : bool) (a b : value) : bool :=
  match a, b with
  | undefined, undefined => true
  | val JNull, val JNull => true
  | val (JBool x), val (JBool y) => Bool.eqb x y
  | val (JNum x), val (JNum y) => PrimFloat.eqb x y
  | val (JStr x), val (JStr y) => String.eqb x y
  | val (JArr _), val (JArr _) => same
  | val (JObj _), val (JObj _) => same
  | _, _ => false
  end.

(** [a === b] for values read from two different places. *)
Definition strict_equal (a b : value) : bool :=
  strict_equal_at false a b.

(** [v.toLowerCase()]: only a string has the method. *)
Definition String_toLowerCase (v : value) : result string :=
  match v with
  | val (JStr s) => Return (toLowerCase s)
  | _ => Throw TypeError
  end.

(** The receiver of [v.sort(...)]: only an array has the method. *)
Definition as_array (v : value) : result (list json) :=
  match v with
  | val (JArr l) => Return l
  | _ => Throw TypeError
  end.

Section Arrays.
Context {A : Type}.

(** [arr.some(p)] with a predicate that may throw. *)
Fixpoint Array_some (p : A -> result bool) (arr : list A) : result bool :=
  match arr with
  | [] => Return false
  | x :: arr' =>
      b <- p x ;;
      if b then Return true else Array_some p arr'
  end.

Fixpoint findIndex_from (p : A -> Z -> result bool) (index : Z) (l : list A)
    : result Z :=
  match l with
  | [] => Return (-1)
  | x :: l' =>
      b <- p x index ;;
      if b then Return index else findIndex_from p (index + 1) l'
  end.

(** [arr.findIndex(p)]; the predicate also gets the index. *)
Definition Array_findIndex (p : A -> Z -> result bool) (arr : list A) : result Z :=
  findIndex_from p 0 arr.

Fixpoint filter_from (f : A -> Z -> result bool) (index : Z) (l : list A)
    : result (list A) :=
  match l with
  | [] => Return []
  | x :: l' =>
      b <- f x index ;;
      rest <- filter_from f (index + 1) l' ;;
      Return (if b then x :: rest else rest)
  end.

Definition Array_filter (f : A -> Z -> list A -> result bool) (arr : list A)
    : result (list A) :=
  filter_from (fun x i => f x i arr) 0 arr.

Fixpoint sort_insert (comparefn : A -> A -> result number) (x : A) (l : list A)
    : result (list A) :=
  match l with
  | [] => Return [x]
  | y :: l' =>
      v <- comparefn x y ;;
      if 0 <? match v with Some v => v | None => 0 end
      then (rest <- sort_insert comparefn x l' ;; Return (y :: rest))
      else Return (x :: l)
  end.

(** [arr.sort(comparefn)]: the stable insertion sort of [Array_sort],
    stopped by the first call of [comparefn] that throws. An array of two
    elements or more has each of them compared at least once. *)
Fixpoint Array_sort (comparefn : A -> A -> result number) (arr : list A)
    : result (list A) :=
  match arr with
  | [] => Return []
  | x :: arr' =>
      sorted <- Array_sort comparefn arr' ;;
      sort_insert comparefn x sorted
  end.

End Arrays.

(** The state, holding whatever the handler put there. *)
Record State : Type := mkState {
  transcripts : list json;
  activeCalls : json
}.

Definition initialState : State :=
  {| transcripts := []; activeCalls := JObj ∅ |}.

(** A state update queued by [setTranscripts] or [setActiveCalls]. React
    runs the updater when it next renders, after the handler has returned
    and so outside its [try]. *)
Inductive Update : Type :=
| setTranscripts (f : list json -> result (list json))
| setActiveCalls (f : json -> result json).

Definition apply_update (st : result State) (u : Update) : result State :=
  st <- st ;;
  match u with
  | setTranscripts f =>
      next <- f (transcripts st) ;;
      Return {| transcripts := next; activeCalls := activeCalls st |}
  | setActiveCalls f =>
      next <- f (activeCalls st) ;;
      Return {| transcripts := transcripts st; activeCalls := next |}
  end.

Definition apply_updates (st : State) (queue : list Update) : result State :=
  foldl apply_update (Return st) queue.


(** An array without [null] among its elements. *)
Definition no_null (l : list json) : Prop :=
  Forall (fun t => t <> JNull) l.

(** An updater that puts no [null] into the transcripts. *)
Definition careful (u : Update) : Prop :=
  match u with
  | setTranscripts f =>
      forall prev next, no_null prev -> f prev = Return next -> no_null next
  | setActiveCalls _ => True
  end.

(** The handler's body: the updates queued so far, and how it ended. *)
Definition Handler (A : Type) : Type := (list Update * result A)%type.

Definition done : Handler unit := ([], Return tt).

Definition eval {A : Type} (c : result A) : Handler A := ([], c).

Definition queue (u : Update) : Handler unit := ([u], Return tt).

Definition andThen {A B : Type} (c : Handler A) (k : A -> Handler B) : Handler B :=
  match c with
  | (q, Return a) => let (q', r) := k a in (q ++ q', r)
  | (q, Throw e) => (q, Throw e)
  end.

Notation "x <~ c ;; k" := (andThen c (fun x => k))
  (at level 100, c at next level, right associativity).

Section Handler.

(** The runtime's conversions. The handler applies them to whatever the
    frame holds; what they do on a string is fixed below, what they do on
    other JSON values is left to the runtime. *)

(** [Date.parse] *)
Variable Date_parse : string -> number.
(** [new Date(j).getTime()] for a JSON value [j] that is not a string. *)
Variable Date_of : json -> result number.
(** [ToString] (and [ToPropertyKey]) of a JSON value that is not a string. *)
Variable ToString_of : json -> result string.
(** The own enumerable properties of a JSON value that is not an object,
    as [{...j}] copies them. *)
Variable CopyDataProperties_of : json -> gmap string json.

(** [new Date(v).getTime()] *)
Definition Date_getTime (v : value) : result number :=
  match v with
  | undefined => Return None
  | val (JStr s) => Return (Date_parse s)
  | val j => Date_of j
  end.

(** [ToString(v)], as a template literal and a computed property key
    apply it. *)
Definition ToString (v : value) : result string :=
  match v with
  | undefined => Return "undefined"%string
  | val (JStr s) => Return s
  | val j => ToString_of j
  end.

(** [{...j}] *)
Definition spread (j : json) : gmap string json :=
  match j with
  | JObj m => m
  | _ => CopyDataProperties_of j
  end.

(** The comparator of the [initial_data] case. *)
Definition by_timestamp (a b : json) : result number :=
  ta <- get (val a) "timestamp" ;;
  na <- Date_getTime ta ;;
  tb <- get (val b) "timestamp" ;;
  nb <- Date_getTime tb ;;
  Return (Number_sub na nb).

(** [uniqueTranscripts] of the [initial_data] case. The elements [t] and
    [transcript] of [arr] are the same object when their indices agree. *)
Definition uniqueTranscripts (received : list json) : result (list json) :=
  sorted <- Array_sort by_timestamp received ;;
  Array_filter
    (fun (transcript : json) (index : Z) (arr : list json) =>
       found <- Array_findIndex
                  (fun (t : json) (j : Z) =>
                     t_id <- get (val t) "id" ;;
                     transcript_id <- get (val transcript) "id" ;;
                     Return (strict_equal_at (j =? index) t_id transcript_id))
                  arr ;;
       Return (index =? found))
    sorted.

(** The predicate passed to [prev.some] in the [transcript] case, with the
    short circuits of [||] and [&&]. *)
Definition same_transcript (data : json) (t : json) : result bool :=
  t_id <- get (val t) "id" ;;
  data_id <- get (val data) "id" ;;
  if strict_equal t_id data_id then Return true else
  t_transcript <- get (val t) "transcript" ;;
  data_transcript <- get (val data) "transcript" ;;
  if negb (strict_equal t_transcript data_transcript) then Return false else
  t_role <- get (val t) "role" ;;
  data_role <- get (val data) "role" ;;
  if negb (strict_equal t_role data_role) then Return false else
  t_timestamp <- get (val t) "timestamp" ;;
  t_time <- Date_getTime t_timestamp ;;
  data_timestamp <- get (val data) "timestamp" ;;
  data_time <- Date_getTime data_timestamp ;;
  Return (Number_lt (Math_abs (Number_sub t_time data_time)) 1000).

(** The updater passed to [setTranscripts] in the [transcript] case. *)
Definition add_transcript (data : json) (prev : list json) : result (list json) :=
  exists_ <- Array_some (same_transcript data) prev ;;
  if exists_ then Return prev
  else Return (Array_slice (-50) (prev ++ [data])).

(** The updater of the [call_status] case:
    [{...prev, [message.data.call_id]: message.data.session}]. *)
Definition upsert_call (data : value) (session : json) (prev : json) : result json :=
  let copy := spread prev in
  call_id <- get data "call_id" ;;
  key <- ToString call_id ;;
  Return (JObj (<[key := session]> copy)).

(** The updater of the [call_removed] case. *)
Definition remove_call (data : value) (prev : json) : result json :=
  let newCalls := spread prev in
  call_id <- get data "call_id" ;;
  key <- ToString call_id ;;
  Return (JObj (delete key newCalls)).

(** The template literal of the two [console.log] calls that name the
    call. *)
Definition log_call (data : value) : result unit :=
  call_id <- get data "call_id" ;;
  _ <- ToString call_id ;;
  Return tt.

Definition is_type (type : value) (name : string) : bool :=
  strict_equal type (val (JStr name)).

(** The body of the [try] block, given what [JSON.parse(event.data)]
    returned or threw. *)
Definition body (parsed : result json) : Handler unit :=
  message <~ eval parsed ;;
  type <~ eval (get (val message) "type") ;;
  if is_type type "initial_data" then
    received <~ eval (get (val message) "transcripts") ;;
    _ <~ (if truthy received then
            arr <~ eval (as_array received) ;;
            unique <~ eval (uniqueTranscripts arr) ;;
            queue (setTranscripts (fun _ => Return unique))
          else done) ;;
    active_calls <~ eval (get (val message) "active_calls") ;;
    match active_calls with
    | val calls =>
        if truthy active_calls
        then queue (setActiveCalls (fun _ => Return calls))
        else done
    | undefined => done
    end
  else if is_type type "transcript" then
    data <~ eval (get (val message) "data") ;;
    match data with
    | val d =>
        if truthy data
        then queue (setTranscripts (add_transcript d))
        else done
    | undefined => done
    end
  else if is_type type "call_status" then
    data <~ eval (get (val message) "data") ;;
    if truthy data then
      session <~ eval (get data "session") ;;
      status <~ eval (get session "status") ;;
      callStatus <~ eval (String_toLowerCase status) ;;
      match session with
      | val s =>
          _ <~ queue (setActiveCalls (upsert_call data s)) ;;
          if String.eqb callStatus "ended" || String.eqb callStatus "failed"
          then
            _ <~ eval (log_call data) ;;
            queue (setTranscripts (fun _ => Return []))
          else done
      | undefined => eval (Throw TypeError)
      end
    else done
  else if is_type type "call_removed" then
    data <~ eval (get (val message) "data") ;;
    call_id <~ eval (get_optional data "call_id") ;;
    if truthy call_id then
      _ <~ eval (log_call data) ;;
      _ <~ queue (setActiveCalls (remove_call data)) ;;
      queue (setTranscripts (fun _ => Return []))
    else done
  else if is_type type "transcripts_cleared" then
    queue (setTranscripts (fun _ => Return []))
  else done.

(** [try { body } catch (error) { console.error(...) }]: whatever the body
    throws is caught and logged; the updates it queued before stay
    queued. *)
Definition try_catch (c : Handler unit) : list Update * option Error :=
  match c with
  | (q, Return _) => (q, None)
  | (q, Throw e) => (q, Some e)
  end.

(** [ws.onmessage], followed by the render that runs the queued updaters.
    [Throw] is an exception that nothing catches. *)
Definition onmessage (st : State) (parsed : result json) : result State :=
  apply_updates st (fst (try_catch (body parsed))).

(** The error that the [catch] clause logged, if any. *)
Definition caught (parsed : result json) : option Error :=
  snd (try_catch (body parsed)).

End Handler.

(** *** Frames the handler cannot use *)

(** A field that is not there, or is [null]. *)
Definition absent (v : value) : Prop :=
  v = undefined \/ v = val JNull.

Definition known_type (type : value) : bool :=
  is_type type "initial_data" || is_type type "transcript"
  || is_type type "call_status" || is_type type "call_removed"
  || is_type type "transcripts_cleared".

(** The frames of which the handler can make nothing: text that is not
    JSON; a value without a [type], or with a [type] that is none of the
    five; a message of a known type without the payload its case reads. *)
Inductive Malformed : result json -> Prop :=
| not_JSON (e : Error) :
    Malformed (Throw e)
| no_type (message : json) :
    get (val message) "type" = Throw TypeError ->
    Malformed (Return message)
| unknown_type (message : json) (type : value) :
    get (val message) "type" = Return type ->
    known_type type = false ->
    Malformed (Return message)
| initial_data_without_fields (message : json) (received active_calls : value) :
    get (val message) "type" = Return (val (JStr "initial_data")) ->
    get (val message) "transcripts" = Return received -> absent received ->
    get (val message) "active_calls" = Return active_calls -> absent active_calls ->
    Malformed (Return message)
| transcript_without_data (message : json) (data : value) :
    get (val message) "type" = Return (val (JStr "transcript")) ->
    get (val message) "data" = Return data -> absent data ->
    Malformed (Return message)
| call_status_without_data (message : json) (data : value) :
    get (val message) "type" = Return (val (JStr "call_status")) ->
    get (val message) "data" = Return data -> absent data ->
    Malformed (Return message)
| call_status_without_session (message : json) (data session : value) :
    get (val message) "type" = Return (val (JStr "call_status")) ->
    get (val message) "data" = Return data ->
    get data "session" = Return session -> absent session ->
    Malformed (Return message)
| call_status_without_status (message : json) (data session status : value) :
    get (val message) "type" = Return (val (JStr "call_status")) ->
    get (val message) "data" = Return data ->
    get data "session" = Return session ->
    get session "status" = Return status -> absent status ->
    Malformed (Return message)
| call_removed_without_data (message : json) (data : value) :
    get (val message) "type" = Return (val (JStr "call_removed")) ->
    get (val message) "data" = Return data -> absent data ->
    Malformed (Return message)
| call_removed_without_call_id (message : json) (data call_id : value) :
    get (val message) "type" = Return (val (JStr "call_removed")) ->
    get (val message) "data" = Return data ->
    get data "call_id" = Return call_id -> absent call_id ->
    Malformed (Return message).

End Raw.

(** ** The declared types as JSON

    The values that [JSON.parse] returns for frames that do have the
    declared types: the link between the two readings of the handler. *)

Module ToJSON.

Definition entry (e : TranscriptEntry) : json :=
  JObj (<["id" := JStr (TranscriptEntry.id e)]>
       (<["role" := JStr (TranscriptEntry.role e)]>
       (<["transcript" := JStr (TranscriptEntry.transcript e)]>
       (<["timestamp" := JStr (TranscriptEntry.timestamp e)]>
       (<["call_id" := JStr (TranscriptEntry.call_id e)]>
       (<["confidence" := JNum (TranscriptEntry.confidence e)]> ∅)))))).

Definition session (s : CallSession) : json :=
  JObj (<["call_id" := JStr (CallSession.call_id s)]>
       (<["status" := JStr (CallSession.status s)]>
       (<["start_time" := JStr (CallSession.start_time s)]>
       (<["participants" := JObj (CallSession.participants s)]>
       (<["metadata" := JObj (CallSession.metadata s)]> ∅))))).

Definition call_status_data (d : CallStatusData.t) : json :=
  JObj (<["call_id" := JStr (CallStatusData.call_id d)]>
       (<["session" := session (CallStatusData.session d)]> ∅)).

Definition call_removed_data (d : CallRemovedData.t) : json :=
  JObj (<["call_id" := JStr (CallRemovedData.call_id d)]> ∅).

(** An optional field: there, or left out. *)
Definition field (k : string) (v : option json) (m : gmap string json)
    : gmap string json :=
  match v with
  | Some j => <[k := j]> m
  | None => m
  end.

Definition typed (type : string) : gmap string json :=
  <["type" := JStr type]> ∅.

Definition message (m : WebSocketMessage) : json :=
  match m with
  | initial_data received active_calls =>
      JObj (field "transcripts" (JArr <$> (map entry <$> received))
           (field "active_calls" (JObj <$> (fmap session <$> active_calls))
           (typed "initial_data")))
  | transcript data =>
      JObj (field "data" (entry <$> data) (typed "transcript"))
  | call_status data =>
      JObj (field "data" (call_status_data <$> data) (typed "call_status"))
  | call_removed data =>
      JObj (field "data" (call_removed_data <$> data) (typed "call_removed"))
  | transcripts_cleared =>
      JObj (typed "transcripts_cleared")
  end.

Definition state (st : State) : Raw.State :=
  {| Raw.transcripts := map entry (transcripts st);
     Raw.activeCalls := JObj (session <$> activeCalls st) |}.

End ToJSON.

(** ** A runtime for the examples

    The theorems below hold whatever the runtime's conversions are. To run
    the handler on concrete messages, this module fixes them: dates are read
    in the full UTC form [YYYY-MM-DDTHH:mm:ss.sssZ] of the ECMAScript date
    time string format (the other forms are not used by the examples and
    read as invalid dates here). *)

Module Runtime.

Definition digit (c : ascii) : option Z :=
  let n := Z.of_nat (nat_of_ascii c) in
  if (48 <=? n) && (n <=? 57) then Some (n - 48) else None.

Fixpoint digits (acc : Z) (l : list ascii) : option Z :=
  match l with
  | [] => Some acc
  | c :: l' =>
      match digit c with
      | Some d => digits (10 * acc + d) l'
      | None => None
      end
  end.

Definition leap_year (y : Z) : bool :=
  ((y mod 4 =? 0) && negb (y mod 100 =? 0)) || (y mod 400 =? 0).

Definition days_in_month (y m : Z) : Z :=
  if m =? 2 then (if leap_year y then 29 else 28)
  else if (m =? 4) || (m =? 6) || (m =? 9) || (m =? 11) then 30
  else 31.

(** Days from 1970-01-01 to the given day of the proleptic Gregorian
    calendar. *)
Definition days_from_civil (y m d : Z) : Z :=
  let y' := if m <=? 2 then y - 1 else y in
  let era := y' / 400 in
  let yoe := y' - era * 400 in
  let mp := if 2 <? m then m - 3 else m + 9 in
  let doy := (153 * mp + 2) / 5 + d - 1 in
  let doe := yoe * 365 + yoe / 4 - yoe / 100 + doy in
  era * 146097 + doe - 719468.

Definition make_time (y m d h mi s ms : Z) : number :=
  if (1 <=? m) && (m <=? 12) && (1 <=? d) && (d <=? days_in_month y m)
     && (h <=? 23) && (mi <=? 59) && (s <=? 59)
  then Some (days_from_civil y m d * 86400000
             + h * 3600000 + mi * 60000 + s * 1000 + ms)
  else None.

Definition Date_parse (s : string) : number :=
  match list_ascii_of_string s with
  | [y1; y2; y3; y4; "-"%char; m1; m2; "-"%char; d1; d2; "T"%char;
     h1; h2; ":"%char; mi1; mi2; ":"%char; s1; s2; "."%char; f1; f2; f3;
     "Z"%char] =>
      match digits 0 [y1; y2; y3; y4], digits 0 [m1; m2], digits 0 [d1; d2],
            digits 0 [h1; h2], digits 0 [mi1; mi2], digits 0 [s1; s2],
            digits 0 [f1; f2; f3] with
      | Some y, Some m, Some d, Some h, Some mi, Some s, Some ms =>
          make_time y m d h mi s ms
      | _, _, _, _, _, _, _ => None
      end
  | _ => None
  end.

(** [TimeClip(ToIntegerOrInfinity(n))] *)
Definition TimeClip (n : float) : number :=
  match Prim2SF n with
  | S754_zero _ => Some 0
  | S754_finite s m e =>
      let a := if 0 <=? e then Z.pos m * 2 ^ e else Z.pos m / 2 ^ (- e) in
      if 8640000000000000 <? a then None
      else Some (if s then - a else a)
  | _ => None
  end.

(** Conversions of the values that are not strings. This runtime knows
    [null], the booleans and the numbers as dates, and [null] and the
    booleans as strings; it throws on the rest, which leaves out what a
    browser does there (the examples do not get there). *)
Definition Date_of (j : json) : Raw.result number :=
  match j with
  | JNull => Raw.Return (Some 0)
  | JBool b => Raw.Return (Some (if b then 1 else 0))
  | JNum n => Raw.Return (TimeClip n)
  | _ => Raw.Throw Raw.TypeError
  end.

Definition ToString_of (j : json) : Raw.result string :=
  match j with
  | JNull => Raw.Return "null"%string
  | JBool b => Raw.Return (if b then "true" else "false")%string
  | _ => Raw.Throw Raw.TypeError
  end.

Definition CopyDataProperties_of (j : json) : gmap string json :=
  match j with
  | JArr l => list_to_map (imap (fun i x => (pretty i, x)) l)
  | _ => ∅
  end.

End Runtime.

(** ** Example data *)

Module Example.

Definition two_digits (n : nat) : string :=
  if (n <? 10)%nat then "0" +:+ pretty n else pretty n.

(** The second [s] of the first minute of 2025. *)
Definition at_second (s : nat) : string :=
  "2025-01-01T00:00:" +:+ two_digits s +:+ ".000Z".

(** The [i]-th record of call c1, at the given timestamp. Records of
    different [i] differ in id and in text. *)
Definition entry (i : nat) (timestamp : string) : TranscriptEntry :=
  TranscriptEntry.mk ("t" +:+ pretty i) "user" ("utterance " +:+ pretty i)
                     timestamp "c1" 0.9%float.

(** 51 records with 51 ids. *)
Definition overfull_snapshot : list TranscriptEntry :=
  map (fun i => entry i (at_second 0)) (seq 0 51).



Definition session (status : string) : CallSession :=
  CallSession.mk "c1" status (at_second 0) ∅ ∅.

(** Frames, as [JSON.parse] returns them. *)
Definition object (fields : list (string * json)) : json :=
  JObj (list_to_map fields).

(** [{'type': 'call_status', 'data': {'call_id': 'c1'}}] *)
Definition call_status_without_session : json :=
  object [("type", JStr "call_status");
          ("data", object [("call_id", JStr "c1")])]%string.

(** [{'type': 'call_status', 'data': {'session': {'status': 'active'}}}] *)
Definition call_status_without_call_id : json :=
  object [("type", JStr "call_status");
          ("data", object [("session", object [("status", JStr "active")])])]%string.

(** [{'type': 'transcript'}] *)
Definition transcript_without_data : json :=
  object [("type", JStr "transcript")]%string.

(** [{'type': 'call_removed', 'data': {}}] *)
Definition call_removed_without_call_id : json :=
  object [("type", JStr "call_removed"); ("data", object [])]%string.

(** [{'type': 'pong'}] *)
Definition pong : json :=
  object [("type", JStr "pong")]%string.

(** A state with one retained record and one active call. *)
Definition busy : State :=
  {| transcripts := [entry 0 (at_second 0)];
     activeCalls := {["c1"%string := session "active"]} |}.

(** Two retained records, the later one first. *)
Definition out_of_order : State :=
  {| transcripts := [entry 1 (at_second 1); entry 0 (at_second 0)];
     activeCalls := {["c1"%string := session "active"]} |}.

End Example.

(** ** What the dashboard shows

    The functions of [page.tsx] that turn the state into what is on the
    screen: the call of the header and of the call panel
    ([getCurrentCall], [calculateDuration], [getStatusColor]) and the
    lines of the transcript panel. *)

(** [n.toString()] of a whole number of magnitude below 1e21 (decimal
    digits, with a minus sign in front of a negative one) or of [NaN]. *)
Definition Number_toString (n : number) : string :=
  match n with
  | Some z => pretty z
  | None => "NaN"
  end.

(** [Math.floor(a / n)] for a whole number [a] and [n] one of 1000, 3600
    and 60. The binary64 quotient of such an [a] below 2^53 never rounds up
    to the next whole number, so its floor is the floor of the exact
    quotient. *)
Definition Math_floor_div (a : number) (n : Z) : number :=
  match a with
  | Some x => Some (x / n)
  | None => None
  end.

(** [a % n]: the remainder has the sign of [a]. *)
Definition Number_rem (a : number) (n : Z) : number :=
  match a with
  | Some x => Some (Z.rem x n)
  | None => None
  end.

Fixpoint fill_from (n : nat) (padString rest : string) : string :=
  match n with
  | O => EmptyString
  | S n' =>
      match rest with
      | String c rest' => String c (fill_from n' padString rest')
      | EmptyString =>
          match padString with
          | String c rest' => String c (fill_from n' padString rest')
          | EmptyString => EmptyString
          end
      end
  end.

(** [s.padStart(targetLength, padString)]: [padString] repeated and cut to
    the missing length, in front of [s]. *)
Definition String_padStart (targetLength : nat) (padString s : string) : string :=
  let len := String.length s in
  if (targetLength <=? len)%nat || String.eqb padString EmptyString then s
  else fill_from (targetLength - len) padString padString +:+ s.

Definition upper_ascii (c : ascii) : ascii :=
  let n := nat_of_ascii c in
  if ((97 <=? n) && (n <=? 122))%nat then ascii_of_nat (n - 32) else c.

(** Upper-casing of the letters a to z; what [toUpperCase] does on a
    string of ASCII characters. *)
Fixpoint toUpperCase_ascii (s : string) : string :=
  match s with
  | EmptyString => EmptyString
  | String c s' => String (upper_ascii c) (toUpperCase_ascii s')
  end.

(** A string of ASCII characters. *)
Fixpoint ascii_only (s : string) : Prop :=
  match s with
  | EmptyString => True
  | String c s' => (nat_of_ascii c < 128)%nat /\ ascii_only s'
  end.

(** [getStatusColor] *)
Definition getStatusColor (status : string) : string :=
  let s := toLowerCase status in
  if String.eqb s "active" then "bg-red-500"
  else if String.eqb s "pending" then "bg-yellow-500"
  else if String.eqb s "resolved" || String.eqb s "ended" then "bg-green-500"
  else if String.eqb s "standby" then "bg-blue-500"
  else "bg-gray-500".

Module Location.
Record t : Type := mk {
  address : string;
  city : string;
  state : string;
  coordinates : float * float
}.
End Location.

Module Caller.
Record t : Type := mk {
  phone : json;
  location : string
}.
End Caller.

(** What [getCurrentCall] returns. *)
Module CallData.
Record t : Type := mk {
  id : string;
  status : string;
  priority : string;
  type : string;
  location : Location.t;
  caller : Caller.t;
  startTime : string;
  duration : string
}.
End CallData.

Definition defaultLocation : Location.t :=
  Location.mk "690 5th St, San Francisco, CA 94107" "San Francisco" "CA"
              ((-122.3971)%float, 37.7761%float).

(** [defaultCallData], with the [defaultStartTime] held in the state. *)
Definition defaultCallData (defaultStartTime : string) : CallData.t :=
  CallData.mk "WAITING" "STANDBY" "NORMAL" "SYSTEM" defaultLocation
              (Caller.mk (JStr "Waiting for calls...") "N/A")
              defaultStartTime "00:00:00".

(** The text next to the status dot of the header. *)
Definition header_text (currentCall : CallData.t) : string :=
  if String.eqb (CallData.status currentCall) "STANDBY"
  then "Monitoring" else "Live Call Active".

Section Screen.

Variable Date_parse : string -> number.
(** [String.prototype.toUpperCase] *)
Variable toUpperCase : string -> string.
(** [date.toLocaleTimeString()] of the date with the given time value. *)
Variable toLocaleTimeString : number -> string.

(** The three numbers of [calculateDuration]: [hours], [minutes],
    [seconds], at the time [now] (the time value of [new Date()]). The
    difference of two time values less than 2^53 milliseconds apart is
    exact in binary64, and so are the numbers computed from it. *)
Definition duration_parts (now : Z) (startTime : string) : number * number * number :=
  let start := getTime Date_parse startTime in
  let diff := Math_floor_div (Number_sub (Some now) start) 1000 in
  let hours := Math_floor_div diff 3600 in
  let minutes := Math_floor_div (Number_rem diff 3600) 60 in
  let seconds := Number_rem diff 60 in
  (hours, minutes, seconds).

Definition two_digits (n : number) : string :=
  String_padStart 2 "0" (Number_toString n).

(** [calculateDuration], at the time [now]. *)
Definition calculateDuration (now : Z) (startTime : string) : string :=
  let '(hours, minutes, seconds) := duration_parts now startTime in
  two_digits hours +:+ ":" +:+ two_digits minutes +:+ ":" +:+ two_digits seconds.

(** [call.participants?.phone || "Unknown"] *)
Definition phone_of (call : CallSession) : json :=
  match CallSession.participants call !! "phone"%string with
  | Some phone => if Raw.truthy (val phone) then phone else JStr "Unknown"
  | None => JStr "Unknown"
  end.

(** The object [getCurrentCall] builds from the first active call. *)
Definition call_data (now : Z) (call : CallSession) : CallData.t :=
  CallData.mk (CallSession.call_id call)
              (toUpperCase (CallSession.status call))
              "HIGH" "EMERGENCY" defaultLocation
              (Caller.mk (phone_of call) (Location.address defaultLocation))
              (toLocaleTimeString (getTime Date_parse (CallSession.start_time call)))
              (calculateDuration now (CallSession.start_time call)).

(** [getCurrentCall], given [activeCallIds = Object.keys(activeCalls)].
    Reading [call.call_id] of a call that is not there throws. *)
Definition getCurrentCall (activeCallIds : list string)
    (activeCalls : gmap string CallSession)
    (defaultStartTime : string) (now : Z) : Raw.result CallData.t :=
  match activeCallIds with
  | first :: _ =>
      match activeCalls !! first with
      | Some call => Raw.Return (call_data now call)
      | None => Raw.Throw Raw.TypeError
      end
  | [] => Raw.Return (defaultCallData defaultStartTime)
  end.

(** [Object.keys(activeCalls)] lists the keys of [activeCalls], in the
    order the object holds them. *)
Definition keys_of (activeCallIds : list string)
    (activeCalls : gmap string CallSession) : Prop :=
  forall k : string, k ∈ activeCallIds <-> is_Some (activeCalls !! k).

(** The lines of the transcript panel:
    [transcripts.sort(byTimestamp).slice(-15)]. *)
Definition panel_entries (transcripts : list TranscriptEntry) : list TranscriptEntry :=
  Array_slice (-15) (Array_sort (by_timestamp Date_parse) transcripts).

End Screen.

(** The character of a decimal digit. *)
Definition decimal_digit (d : Z) : ascii :=
  ascii_of_nat (48 + Z.to_nat d).

(** A number below 100 written with two decimal digits. *)
Definition two_decimal_digits (n : Z) : string :=
  String (decimal_digit (n / 10)) (String (decimal_digit (n mod 10)) EmptyString).

(** ** Messages and renders

    Between two messages React may or may not have rendered the component;
    a render sorts the array held in [transcripts] in place (see
    [render]). *)

Section Steps.

Variable Date_parse : string -> number.

Inductive Step : Type :=
| handle (message : WebSocketMessage)
| rerender.

Definition step (st : State) (s : Step) : State :=
  match s with
  | handle message => onmessage Date_parse st message
  | rerender => render Date_parse st
  end.

Definition run_steps (st : State) (steps : list Step) : State :=
  foldl step st steps.

(** The messages among the steps, in order. *)
Definition messages_of (steps : list Step) : list WebSocketMessage :=
  omap (fun s => match s with handle message => Some message | rerender => None end)
       steps.

(** A message that brings a snapshot of the transcripts. *)
Definition is_snapshot (s : Step) : Prop :=
  exists received active_calls, s = handle (initial_data (Some received) active_calls).

(** The messages that write the entry of call [k] in the active calls: a
    [call_status] or [call_removed] message that names [k], and a snapshot
    of the active calls. *)
Definition concerns (message : WebSocketMessage) (k : string) : Prop :=
  match message with
  | initial_data _ (Some _) => True
  | call_status (Some data) => CallStatusData.call_id data = k
  | call_removed (Some data) => CallRemovedData.call_id data = k
  | _ => False
  end.

(** No record of the list duplicates another one. *)
Definition duplicate_free (l : list TranscriptEntry) : Prop :=
  ForallOrdPairs (fun a b => ~ duplicate_of Date_parse b a) l.

End Steps.

(** ** The banner of a cleared transcript

    The cases of the handler that clear the transcripts also raise
    [showClearMessage] and set a timer that lowers it; so does
    [clearTranscripts] when the backend accepts the request. No timer is
    ever cancelled. *)

(** The delay of the timer that the handler sets when it raises
    [showClearMessage]; [None] for a message at which the handler leaves
    the banner alone. *)
Definition banner_delay (message : WebSocketMessage) : option Z :=
  match message with
  | call_status (Some data) =>
      if call_over (CallStatusData.session data) then Some 3000 else None
  | call_removed (Some data) =>
      if truthy_string (CallRemovedData.call_id data) then Some 3000 else None
  | transcripts_cleared => Some 2000
  | _ => None
  end.

(** The state of the component that the transcript panel is drawn from,
    with the deadlines of the timers that are pending, in the order they
    were set. *)
Record View : Type := {
  handled : State;
  showClearMessage : bool;
  timeouts : list Z
}.

Definition initialView : View :=
  {| handled := initialState; showClearMessage := false; timeouts := [] |}.

Inductive Event : Type :=
| message_arrives (now : Z) (message : WebSocketMessage)
| clear_request_succeeds (now : Z)
| timeout_runs (i : nat)
| component_renders.

(** What the transcript panel holds. *)
Inductive Panel : Type :=
| lines (entries : list TranscriptEntry)
| call_ended
| waiting_for_transcript_data
| waiting_for_speech.

Section Banner.

Variable Date_parse : string -> number.

(** [setShowClearMessage(true); setTimeout(() => setShowClearMessage(false), delay)]
    at the time [now]. *)
Definition raise_banner (now delay : Z) (v : View) : View :=
  {| handled := handled v;
     showClearMessage := true;
     timeouts := timeouts v ++ [now + delay] |}.

(** One event of the component: a message is handled, the backend answers
    [ok] to [clearTranscripts], one of the pending timers runs, or React
    renders the component. *)
Definition react (v : View) (e : Event) : View :=
  match e with
  | message_arrives now message =>
      let v' := {| handled := onmessage Date_parse (handled v) message;
                   showClearMessage := showClearMessage v;
                   timeouts := timeouts v |} in
      match banner_delay message with
      | Some delay => raise_banner now delay v'
      | None => v'
      end
  | clear_request_succeeds now => raise_banner now 2000 v
  | timeout_runs i =>
      match timeouts v !! i with
      | Some _ => {| handled := handled v;
                     showClearMessage := false;
                     timeouts := delete i (timeouts v) |}
      | None => v
      end
  | component_renders =>
      {| handled := render Date_parse (handled v);
         showClearMessage := showClearMessage v;
         timeouts := timeouts v |}
  end.

Definition react_all (v : View) (events : list Event) : View :=
  foldl react v events.

(** The transcript panel, given [activeCallIds = Object.keys(activeCalls)]. *)
Definition transcript_panel (v : View) (activeCallIds : list string) : Panel :=
  if 0 <? Z.of_nat (length (transcripts (handled v)))
  then lines (panel_entries Date_parse (transcripts (handled v)))
  else if showClearMessage v then call_ended
  else if Z.of_nat (length activeCallIds) =? 0 then waiting_for_transcript_data
  else waiting_for_speech.

End Banner.

Example Date_parse_epoch :
  Runtime.Date_parse "1970-01-01T00:00:00.000Z" = Some 0.
Proof. reflexivity. Qed.

Example Date_parse_2025 :
  Runtime.Date_parse "2025-01-01T00:00:00.000Z" = Some 1735689600000.
Proof. reflexivity. Qed.

Example Date_parse_2024_leap :
  Runtime.Date_parse "2024-02-29T23:59:59.999Z" = Some 1709251199999.
Proof. reflexivity. Qed.

Example Date_parse_invalid :
  Runtime.Date_parse "yesterday" = None.
Proof. reflexivity. Qed.

(** * Properties of the handler *)

(** ** [sort] with a comparator that subtracts keys *)

Section SortFacts.

Context {A : Type} (comparefn : A -> A -> number) (key : A -> Z) (P : A -> Prop).

Hypothesis comparefn_key :
  forall x y, P x -> P y -> comparefn x y = Some (key x - key y).

Lemma sort_insert_perm (x : A) (l : list A) :
  sort_insert comparefn x l ≡ₚ x :: l.
Proof.
  induction l as [|y l IH]; simpl; [reflexivity |].
  destruct (0 <? SortCompare comparefn x y); [|reflexivity].
  rewrite IH. apply perm_swap.
Qed.

Lemma Array_sort_perm (l : list A) : Array_sort comparefn l ≡ₚ l.
Proof.
  induction l as [|x l IH]; simpl; [reflexivity |].
  unfold Array_sort in *. simpl. rewrite sort_insert_perm, IH. reflexivity.
Qed.

Lemma Array_sort_length (l : list A) :
  length (Array_sort comparefn l) = length l.
Proof. apply Permutation_length, Array_sort_perm. Qed.

Lemma Array_sort_Forall (Q : A -> Prop) (l : list A) :
  Forall Q l -> Forall Q (Array_sort comparefn l).
Proof.
  intros H. eapply Permutation_Forall; [|exact H].
  symmetry. apply Array_sort_perm.
Qed.

Lemma SortCompare_key (x y : A) :
  P x -> P y -> SortCompare comparefn x y = key x - key y.
Proof. intros Hx Hy. unfold SortCompare. rewrite comparefn_key by assumption. reflexivity. Qed.

Lemma sort_insert_sorted (x : A) (l : list A) :
  P x -> Forall P l ->
  StronglySorted (key_le key) l -> StronglySorted (key_le key) (sort_insert comparefn x l).
Proof.
  intros Hx HP Hsorted.
  induction l as [|y l IH]; simpl.
  - constructor; constructor.
  - inversion HP as [|? ? Hy HPl]; subst.
    inversion Hsorted as [|? ? Hl Hyl]; subst.
    rewrite SortCompare_key by assumption.
    destruct (Z.ltb_spec 0 (key x - key y)) as [Hgt | Hle].
    + constructor; [apply IH; assumption |].
      eapply Permutation_Forall; [symmetry; apply sort_insert_perm |].
      constructor; [unfold key_le; lia | exact Hyl].
    + constructor; [exact Hsorted |].
      constructor; [unfold key_le; lia |].
      eapply Forall_impl; [exact Hyl |].
      unfold key_le. intros z Hz. lia.
Qed.

Lemma Array_sort_sorted (l : list A) :
  Forall P l -> StronglySorted (key_le key) (Array_sort comparefn l).
Proof.
  induction l as [|x l IH]; intros HP.
  - constructor.
  - inversion HP; subst. unfold Array_sort. simpl.
    apply sort_insert_sorted; [assumption | | ].
    + apply Array_sort_Forall. assumption.
    + apply IH. assumption.
Qed.

(** Stability: the elements of one key keep their order. *)
Lemma sort_insert_stable (k : Z) (x : A) (l : list A) :
  P x -> Forall P l ->
  List.filter (fun y => key y =? k) (sort_insert comparefn x l)
  = List.filter (fun y => key y =? k) (x :: l).
Proof.
  intros Hx HP.
  induction l as [|y l IH]; [reflexivity |].
  inversion HP as [|? ? Hy HPl]; subst.
  simpl. rewrite SortCompare_key by assumption.
  destruct (Z.ltb_spec 0 (key x - key y)) as [Hgt | Hle]; [|reflexivity].
  simpl. rewrite (IH HPl). simpl.
  destruct (Z.eqb_spec (key x) k) as [Hxk | Hxk];
    destruct (Z.eqb_spec (key y) k) as [Hyk | Hyk]; try reflexivity.
  lia.
Qed.

Lemma Array_sort_stable (k : Z) (l : list A) :
  Forall P l ->
  List.filter (fun y => key y =? k) (Array_sort comparefn l)
  = List.filter (fun y => key y =? k) l.
Proof.
  induction l as [|x l IH]; intros HP; [reflexivity |].
  inversion HP; subst. unfold Array_sort. simpl.
  rewrite sort_insert_stable; [| assumption | apply Array_sort_Forall; assumption].
  simpl. unfold Array_sort in IH. rewrite IH by assumption. reflexivity.
Qed.

End SortFacts.

Section Properties.

Variable Date_parse : string -> number.

(** ** [slice(-50)] *)

Lemma Array_slice_50 {A : Type} (l : list A) :
  Array_slice (-50) l = drop (length l - 50) l.
Proof. unfold Array_slice. f_equal. simpl. lia. Qed.

Lemma Array_slice_50_length {A : Type} (l : list A) :
  length (Array_slice (-50) l) = Nat.min (length l) 50.
Proof. rewrite Array_slice_50, length_drop. lia. Qed.

Lemma Array_slice_50_push {A : Type} (prev : list A) (x : A) :
  Array_slice (-50) (prev ++ [x]) = drop (length prev - 49) prev ++ [x].
Proof.
  rewrite Array_slice_50, length_app. simpl.
  replace (length prev + 1 - 50)%nat with (length prev - 49)%nat by lia.
  rewrite drop_app_le by lia. reflexivity.
Qed.

(** ** [findIndex] and the first record of each id *)

Lemma findIndex_from_bound {A : Type} (p : A -> bool) (k : Z) (l : list A) :
  existsb p l = true ->
  k <= findIndex_from p k l < k + Z.of_nat (length l).
Proof.
  revert k. induction l as [|x l IH]; intros k H; [discriminate |].
  simpl in *. destruct (p x).
  - lia.
  - specialize (IH (k + 1) H). lia.
Qed.

Lemma findIndex_from_app {A : Type} (p : A -> bool) (k : Z) (l1 l2 : list A) :
  findIndex_from p k (l1 ++ l2)
  = if existsb p l1 then findIndex_from p k l1
    else findIndex_from p (k + Z.of_nat (length l1)) l2.
Proof.
  revert k. induction l1 as [|x l1 IH]; intros k; simpl.
  - f_equal. lia.
  - destruct (p x); [reflexivity |].
    rewrite IH. destruct (existsb p l1); [reflexivity |]. f_equal. lia.
Qed.

Lemma first_index_test (earlier l : list TranscriptEntry) (x : TranscriptEntry) :
  (Z.of_nat (length earlier)
   =? Array_findIndex (same_id x) (earlier ++ x :: l))
  = negb (existsb (same_id x) earlier).
Proof.
  unfold Array_findIndex. rewrite findIndex_from_app.
  destruct (existsb (same_id x) earlier) eqn:E.
  - pose proof (findIndex_from_bound _ 0 _ E). simpl. apply Z.eqb_neq. lia.
  - simpl. unfold same_id at 1. rewrite String.eqb_refl. apply Z.eqb_eq. lia.
Qed.

Lemma filter_first_index (arr earlier l : list TranscriptEntry) :
  arr = earlier ++ l ->
  filter_from (fun x i => i =? Array_findIndex (same_id x) arr)
              (Z.of_nat (length earlier)) l
  = keep_first_ids_after earlier l.
Proof.
  revert earlier. induction l as [|x l IH]; intros earlier Harr; [reflexivity |].
  simpl. subst arr. rewrite first_index_test.
  replace (Z.of_nat (length earlier) + 1) with (Z.of_nat (length (earlier ++ [x])))
    by (rewrite length_app; simpl; lia).
  rewrite (IH (earlier ++ [x])) by (rewrite <- app_assoc; reflexivity).
  destruct (existsb (same_id x) earlier); reflexivity.
Qed.

(** What the handler computes from the received transcripts is the sorted
    array with the first record of each id. *)
Lemma uniqueTranscripts_keep_first (received : list TranscriptEntry) :
  uniqueTranscripts Date_parse received
  = keep_first_ids (Array_sort (by_timestamp Date_parse) received).
Proof.
  unfold uniqueTranscripts, Array_filter, keep_first_ids.
  apply (filter_first_index _ []). reflexivity.
Qed.

Lemma keep_first_ids_after_elem (earlier l : list TranscriptEntry) (x : TranscriptEntry) :
  x ∈ keep_first_ids_after earlier l -> x ∈ l.
Proof.
  revert earlier. induction l as [|y l IH]; intros earlier; simpl.
  - intros H. exact H.
  - destruct (existsb _ earlier).
    + intros H. apply list_elem_of_further. eapply IH. exact H.
    + intros H. apply elem_of_cons in H. destruct H as [-> | H].
      * apply list_elem_of_here.
      * apply list_elem_of_further. eapply IH. exact H.
Qed.

Lemma keep_first_ids_after_sorted (R : TranscriptEntry -> TranscriptEntry -> Prop)
    (earlier l : list TranscriptEntry) :
  StronglySorted R l -> StronglySorted R (keep_first_ids_after earlier l).
Proof.
  revert earlier. induction l as [|y l IH]; intros earlier Hs; simpl.
  - constructor.
  - inversion Hs as [|? ? Hl Hyl]; subst.
    destruct (existsb _ earlier); [apply IH; exact Hl |].
    constructor; [apply IH; exact Hl |].
    apply List.Forall_forall. intros z Hz.
    apply list_elem_of_In, keep_first_ids_after_elem in Hz.
    rewrite List.Forall_forall in Hyl. apply Hyl, list_elem_of_In. exact Hz.
Qed.

Lemma existsb_same_id (x : TranscriptEntry) (l : list TranscriptEntry) :
  existsb (same_id x) l = true <-> TranscriptEntry.id x ∈ map TranscriptEntry.id l.
Proof.
  rewrite existsb_exists, list_elem_of_fmap. unfold same_id. split.
  - intros (t & Hin & Heq). apply String.eqb_eq in Heq.
    exists t. split; [congruence | apply list_elem_of_In; exact Hin].
  - intros (t & Heq & Hin). exists t.
    split; [apply list_elem_of_In; exact Hin | apply String.eqb_eq; congruence].
Qed.

(** The ids of the kept records are new with respect to [earlier]. *)
Lemma keep_first_ids_after_new (earlier l : list TranscriptEntry) (x : TranscriptEntry) :
  x ∈ keep_first_ids_after earlier l ->
  TranscriptEntry.id x ∉ map TranscriptEntry.id earlier.
Proof.
  revert earlier. induction l as [|y l IH]; intros earlier; simpl.
  - intros H. inversion H.
  - assert (Hstep : x ∈ keep_first_ids_after (earlier ++ [y]) l ->
                    TranscriptEntry.id x ∉ map TranscriptEntry.id earlier).
    { intros H Hin. apply (IH _ H). rewrite map_app. apply elem_of_app. left. exact Hin. }
    destruct (existsb (same_id y) earlier) eqn:E; [exact Hstep |].
    intros H. apply elem_of_cons in H. destruct H as [-> | H]; [|apply Hstep; exact H].
    intros Hin. apply existsb_same_id in Hin. congruence.
Qed.

Lemma keep_first_ids_after_NoDup (earlier l : list TranscriptEntry) :
  NoDup (map TranscriptEntry.id (keep_first_ids_after earlier l)).
Proof.
  revert earlier. induction l as [|y l IH]; intros earlier; simpl.
  - constructor.
  - destruct (existsb _ earlier); [apply IH |].
    simpl. constructor; [|apply IH].
    intros Hin. apply list_elem_of_fmap in Hin. destruct Hin as (z & Hid & Hz).
    apply keep_first_ids_after_new in Hz. apply Hz.
    rewrite map_app. apply elem_of_app. right. simpl. rewrite Hid.
    apply list_elem_of_here.
Qed.

(** Every id of [l] is the id of a kept record or of a record of
    [earlier]. *)
Lemma keep_first_ids_after_complete (earlier l : list TranscriptEntry) (x : TranscriptEntry) :
  x ∈ l ->
  TranscriptEntry.id x ∈ map TranscriptEntry.id earlier
  \/ TranscriptEntry.id x ∈ map TranscriptEntry.id (keep_first_ids_after earlier l).
Proof.
  revert earlier. induction l as [|y l IH]; intros earlier Hin; [inversion Hin |].
  simpl.
  apply elem_of_cons in Hin. destruct Hin as [-> | Hin].
  - destruct (existsb (same_id y) earlier) eqn:E.
    + left. apply existsb_same_id. exact E.
    + right. simpl. apply list_elem_of_here.
  - destruct (IH (earlier ++ [y]) Hin) as [H | H].
    + rewrite map_app in H. apply elem_of_app in H. destruct H as [H | H].
      * left. exact H.
      * simpl in H. apply list_elem_of_singleton in H.
        destruct (existsb (same_id y) earlier) eqn:E.
        -- left. rewrite H. apply existsb_same_id. exact E.
        -- right. simpl. rewrite H. apply list_elem_of_here.
    + right. destruct (existsb (same_id y) earlier); [exact H |].
      simpl. apply list_elem_of_further. exact H.
Qed.

(** ** The duplicate test *)

Lemma same_transcript_spec (data t : TranscriptEntry) :
  same_transcript Date_parse data t = true <-> duplicate_of Date_parse data t.
Proof.
  unfold same_transcript, duplicate_of, within_one_second, getTime.
  rewrite orb_true_iff, !andb_true_iff, !String.eqb_eq.
  split.
  - intros [Hid | [[Htext Hrole] Htime]]; [left; exact Hid | right].
    split; [exact Hrole | split; [exact Htext |]].
    destruct (Date_parse (TranscriptEntry.timestamp t)) as [x|]; [|discriminate].
    destruct (Date_parse (TranscriptEntry.timestamp data)) as [y|]; [|discriminate].
    exists x, y. simpl in Htime. apply Z.ltb_lt in Htime. auto.
  - intros [Hid | (Hrole & Htext & x & y & Hx & Hy & Hlt)]; [left; exact Hid | right].
    split; [split; assumption |].
    rewrite Hx, Hy. simpl. apply Z.ltb_lt. exact Hlt.
Qed.

Lemma exists_spec (prev : list TranscriptEntry) (data : TranscriptEntry) :
  exists_ Date_parse prev data = true <-> is_duplicate Date_parse data prev.
Proof.
  unfold exists_, Array_some, is_duplicate.
  rewrite existsb_exists. split.
  - intros (t & Hin & Ht). exists t. split.
    + apply list_elem_of_In. exact Hin.
    + apply same_transcript_spec. exact Ht.
  - intros (t & Hin & Ht). exists t. split.
    + apply list_elem_of_In. exact Hin.
    + apply same_transcript_spec. exact Ht.
Qed.

Lemma exists_false (prev : list TranscriptEntry) (data : TranscriptEntry) :
  exists_ Date_parse prev data = false <-> ~ is_duplicate Date_parse data prev.
Proof.
  rewrite <- exists_spec. destruct (exists_ Date_parse prev data); split; congruence.
Qed.

Lemma State_eta (st : State) :
  {| transcripts := transcripts st; activeCalls := activeCalls st |} = st.
Proof. destruct st; reflexivity. Qed.

Lemma add_transcript_duplicate (data : TranscriptEntry) (prev : list TranscriptEntry) :
  is_duplicate Date_parse data prev -> add_transcript Date_parse data prev = prev.
Proof.
  intros H. apply exists_spec in H. unfold add_transcript. rewrite H. reflexivity.
Qed.

Lemma add_transcript_fresh (data : TranscriptEntry) (prev : list TranscriptEntry) :
  ~ is_duplicate Date_parse data prev ->
  add_transcript Date_parse data prev = drop (length prev - 49) prev ++ [data].
Proof.
  intros H. apply exists_false in H. unfold add_transcript. rewrite H.
  apply Array_slice_50_push.
Qed.

(** C1: a [transcript] message appends its fragment to the retained list
    exactly when the fragment is not a duplicate, a duplicate being a
    fragment for which some retained record has the same id, or the same
    role and text and a timestamp less than one second away. A duplicate
    leaves the state as it is; a fragment that is not one goes to the end
    of the list, in front of which only the records beyond the last 49 are
    dropped. A second fragment with the role and text of the first and a
    timestamp within a second of it, whatever its id, leaves a list of
    length 1. *)
Theorem transcript_appended_iff_not_duplicate
    (st : State) (data : TranscriptEntry) :
  (is_duplicate Date_parse data (transcripts st) ->
   onmessage Date_parse st (transcript (Some data)) = st)
  /\ (~ is_duplicate Date_parse data (transcripts st) ->
      onmessage Date_parse st (transcript (Some data))
      = {| transcripts :=
             drop (length (transcripts st) - 49) (transcripts st) ++ [data];
           activeCalls := activeCalls st |})
  /\ (forall (f1 f2 : TranscriptEntry) (calls : gmap string CallSession),
        TranscriptEntry.role f2 = TranscriptEntry.role f1 ->
        TranscriptEntry.transcript f2 = TranscriptEntry.transcript f1 ->
        within_one_second Date_parse f1 f2 ->
        transcripts
          (run Date_parse {| transcripts := []; activeCalls := calls |}
             [transcript (Some f1); transcript (Some f2)]) = [f1]).
Proof.
  split; [|split].
  - intros H. simpl. unfold setTranscripts.
    rewrite add_transcript_duplicate by exact H. apply State_eta.
  - intros H. simpl. unfold setTranscripts.
    rewrite add_transcript_fresh by exact H. reflexivity.
  - intros f1 f2 calls Hrole Htext Hnear. simpl.
    rewrite (add_transcript_fresh f1 []).
    + simpl. apply add_transcript_duplicate.
      exists f1. split; [apply list_elem_of_here |].
      right. auto.
    + intros (t & Hin & _). inversion Hin.
Qed.

(** ** [initial_data] *)

Lemma by_timestamp_key (x y : TranscriptEntry) :
  is_Some (getTime Date_parse (TranscriptEntry.timestamp x)) ->
  is_Some (getTime Date_parse (TranscriptEntry.timestamp y)) ->
  by_timestamp Date_parse x y
  = Some (time_of Date_parse x - time_of Date_parse y).
Proof.
  intros [a Ha] [b Hb]. unfold by_timestamp, time_of. rewrite Ha, Hb. reflexivity.
Qed.

Lemma sorted_by_time_ascending (l : list TranscriptEntry) :
  dated Date_parse l ->
  StronglySorted (key_le (time_of Date_parse)) l ->
  StronglySorted (ascending Date_parse) l.
Proof.
  intros Hd Hs. induction Hs as [|x l Hl IH Hx]; [constructor |].
  inversion Hd as [|? ? [a Ha] Hdl]; subst.
  constructor; [apply IH; exact Hdl |].
  unfold dated in Hdl. rewrite List.Forall_forall in Hx, Hdl.
  apply List.Forall_forall. intros y Hy.
  destruct (Hdl y Hy) as [b Hb]. specialize (Hx y Hy).
  unfold key_le, time_of in Hx. rewrite Ha, Hb in Hx. simpl in Hx.
  exists a, b. auto.
Qed.

Lemma ascending_sorted_by_time (l : list TranscriptEntry) :
  StronglySorted (ascending Date_parse) l ->
  StronglySorted (key_le (time_of Date_parse)) l.
Proof.
  intros Hs. induction Hs as [|x l Hl IH Hx]; [constructor |].
  constructor; [exact IH |].
  eapply Forall_impl; [exact Hx |].
  intros y (a & b & Ha & Hb & Hab). unfold key_le, time_of.
  rewrite Ha, Hb. exact Hab.
Qed.

(** C5: an [initial_data] message that carries both fields replaces the
    active calls by the received mapping, and the retained transcript list
    by the received transcripts sorted by ascending timestamp (records of
    one timestamp staying in the received order) of which, for each id,
    the first record is kept and the later ones are removed. The
    timestamps are taken to be dates, as sorting by them supposes. *)
Theorem initial_data_replaces_both
    (st : State) (received : list TranscriptEntry)
    (active_calls : gmap string CallSession) :
  dated Date_parse received ->
  let st' := onmessage Date_parse st (initial_data (Some received) (Some active_calls)) in
  let sorted := Array_sort (by_timestamp Date_parse) received in
  activeCalls st' = active_calls
  /\ transcripts st' = keep_first_ids sorted
  /\ sorted ≡ₚ received
  /\ StronglySorted (ascending Date_parse) sorted
  /\ (forall k : Z,
        List.filter (fun x => time_of Date_parse x =? k) sorted
        = List.filter (fun x => time_of Date_parse x =? k) received)
  /\ StronglySorted (ascending Date_parse) (transcripts st')
  /\ NoDup (map TranscriptEntry.id (transcripts st'))
  /\ (forall x, x ∈ received ->
        TranscriptEntry.id x ∈ map TranscriptEntry.id (transcripts st'))
  /\ (forall x, x ∈ transcripts st' -> x ∈ received).
Proof.
  intros Hdated st' sorted.
  assert (Htr : transcripts st' = keep_first_ids sorted).
  { subst st' sorted. simpl. apply uniqueTranscripts_keep_first. }
  assert (Hperm : sorted ≡ₚ received) by apply Array_sort_perm.
  assert (Hsorted : StronglySorted (ascending Date_parse) sorted).
  { apply sorted_by_time_ascending.
    - apply Array_sort_Forall. exact Hdated.
    - eapply Array_sort_sorted; [apply by_timestamp_key | exact Hdated]. }
  split; [reflexivity |]. split; [exact Htr |]. split; [exact Hperm |].
  split; [exact Hsorted |]. split.
  { intros k. eapply Array_sort_stable; [apply by_timestamp_key | exact Hdated]. }
  rewrite Htr. unfold keep_first_ids. split.
  { apply keep_first_ids_after_sorted. exact Hsorted. }
  split; [apply keep_first_ids_after_NoDup |]. split.
  - intros x Hx.
    assert (Hin : x ∈ sorted) by (rewrite Hperm; exact Hx).
    destruct (keep_first_ids_after_complete [] sorted x Hin) as [H | H];
      [inversion H | exact H].
  - intros x Hx. apply keep_first_ids_after_elem in Hx.
    rewrite <- Hperm. exact Hx.
Qed.

(** An [initial_data] message replaces only what it carries. *)
Lemma initial_data_fields (st : State)
    (received : option (list TranscriptEntry))
    (active_calls : option (gmap string CallSession)) :
  onmessage Date_parse st (initial_data received active_calls)
  = {| transcripts :=
         match received with
         | Some received => uniqueTranscripts Date_parse received
         | None => transcripts st
         end;
       activeCalls := default (activeCalls st) active_calls |}.
Proof.
  destruct received, active_calls; simpl; try reflexivity.
  symmetry. apply State_eta.
Qed.

(** ** Call sessions *)

(** C3, as the handler has it: a [call_status] message whose session
    status is [ended] or [failed], in any letter case, empties the retained
    transcript list and stores the session under its call id; the session
    stays in the active calls (a later [call_removed] message is what
    deletes it). *)
Theorem call_status_terminal_clears_and_keeps_session
    (st : State) (data : CallStatusData.t) :
  terminal (CallStatusData.session data) ->
  onmessage Date_parse st (call_status (Some data))
  = {| transcripts := [];
       activeCalls := <[CallStatusData.call_id data := CallStatusData.session data]>
                        (activeCalls st) |}
  /\ activeCalls (onmessage Date_parse st (call_status (Some data)))
       !! CallStatusData.call_id data
     = Some (CallStatusData.session data).
Proof.
  intros Hterm.
  assert (Hover : call_over (CallStatusData.session data) = true).
  { unfold call_over. apply orb_true_iff.
    destruct Hterm as [H | H]; [left | right]; apply String.eqb_eq; exact H. }
  simpl. rewrite Hover. split; [reflexivity |].
  simpl. apply lookup_insert_eq.
Qed.

(** A [call_status] message whose status is not terminal stores the session
    and leaves the transcripts. *)
Lemma call_status_not_terminal (st : State) (data : CallStatusData.t) :
  ~ terminal (CallStatusData.session data) ->
  onmessage Date_parse st (call_status (Some data))
  = {| transcripts := transcripts st;
       activeCalls := <[CallStatusData.call_id data := CallStatusData.session data]>
                        (activeCalls st) |}.
Proof.
  intros Hterm.
  assert (Hover : call_over (CallStatusData.session data) = false).
  { unfold call_over. apply orb_false_iff.
    split; apply String.eqb_neq; intros H; apply Hterm; [left | right]; exact H. }
  simpl. rewrite Hover. reflexivity.
Qed.

(** C7, as the handler has it: a [call_removed] message that names a call
    by a call id that is not the empty string removes that call from the
    active calls, leaves the other calls, and empties the retained
    transcript list; when the call is not among the active calls the
    mapping stays as it is, and the transcript list is emptied all the
    same. *)
Theorem call_removed_removes_and_clears
    (st : State) (data : CallRemovedData.t) :
  CallRemovedData.call_id data <> ""%string ->
  let st' := onmessage Date_parse st (call_removed (Some data)) in
  st' = {| transcripts := [];
           activeCalls := delete (CallRemovedData.call_id data) (activeCalls st) |}
  /\ activeCalls st' !! CallRemovedData.call_id data = None
  /\ (forall other : string,
        other <> CallRemovedData.call_id data ->
        activeCalls st' !! other = activeCalls st !! other)
  /\ (activeCalls st !! CallRemovedData.call_id data = None ->
      st' = {| transcripts := []; activeCalls := activeCalls st |}).
Proof.
  intros Hne st'.
  assert (Htruthy : truthy_string (CallRemovedData.call_id data) = true).
  { unfold truthy_string. apply negb_true_iff, String.eqb_neq. exact Hne. }
  assert (Hst' : st' = {| transcripts := [];
                          activeCalls := delete (CallRemovedData.call_id data)
                                                (activeCalls st) |}).
  { subst st'. simpl. rewrite Htruthy. reflexivity. }
  rewrite Hst'. simpl. repeat split.
  - apply lookup_delete_eq.
  - intros other Hother. apply lookup_delete_ne. congruence.
  - intros Habsent. f_equal. apply delete_id. exact Habsent.
Qed.

(** C8: handling the same [call_status] message twice in a row gives the
    state that handling it once gives. *)
Theorem call_status_idempotent (st : State) (data : option CallStatusData.t) :
  onmessage Date_parse (onmessage Date_parse st (call_status data)) (call_status data)
  = onmessage Date_parse st (call_status data).
Proof.
  destruct data as [data|]; [|reflexivity].
  simpl. destruct (call_over (CallStatusData.session data)); simpl;
    unfold setTranscripts, setActiveCalls; simpl;
    rewrite insert_insert_eq; reflexivity.
Qed.

(** C10: a [transcripts_cleared] message empties the retained transcript
    list and leaves the active calls as they are. *)
Theorem transcripts_cleared_only_clears (st : State) :
  onmessage Date_parse st transcripts_cleared
  = {| transcripts := []; activeCalls := activeCalls st |}.
Proof. reflexivity. Qed.

(** C6: a [transcript] message for the fragment a1 of call c1, then a
    [call_status] message for c1 with status ended, then
    [transcripts_cleared], then [call_removed] for c1: from the initial
    state the retained transcript list and the active calls are both empty
    at the end. On the way the fragment is retained after the first
    message, and the ended session is held after the second. From any
    state, the four messages end with no transcripts and without c1 among
    the active calls. *)
Theorem scenario_leaves_both_empty
    (T start_time : string) (participants metadata : gmap string json) :
  let fragment := TranscriptEntry.mk "a1" "user" "hello" T "c1" 0.9%float in
  let session := CallSession.mk "c1" "ended" start_time participants metadata in
  let m1 := transcript (Some fragment) in
  let m2 := call_status (Some (CallStatusData.mk "c1" session)) in
  let m3 := transcripts_cleared in
  let m4 := call_removed (Some (CallRemovedData.mk "c1")) in
  run Date_parse initialState [m1] = {| transcripts := [fragment]; activeCalls := ∅ |}
  /\ run Date_parse initialState [m1; m2]
     = {| transcripts := []; activeCalls := {["c1"%string := session]} |}
  /\ run Date_parse initialState [m1; m2; m3; m4]
     = {| transcripts := []; activeCalls := ∅ |}
  /\ forall st : State,
       run Date_parse st [m1; m2; m3; m4]
       = {| transcripts := []; activeCalls := delete "c1"%string (activeCalls st) |}.
Proof.
  intros fragment session m1 m2 m3 m4.
  assert (Hany : forall st : State,
            run Date_parse st [m1; m2; m3; m4]
            = {| transcripts := [];
                 activeCalls := delete "c1"%string (activeCalls st) |}).
  { intros st. simpl. unfold setTranscripts, setActiveCalls. simpl.
    f_equal. apply delete_insert_eq. }
  split; [reflexivity |]. split; [reflexivity |]. split; [|exact Hany].
  rewrite Hany. simpl. f_equal; apply delete_empty.
Qed.


(** ** Capacity *)

Lemma add_transcript_length (data : TranscriptEntry) (prev : list TranscriptEntry) :
  (length prev <= 50 -> length (add_transcript Date_parse data prev) <= 50)%nat.
Proof.
  intros H. unfold add_transcript. destruct (exists_ Date_parse prev data); [exact H |].
  rewrite Array_slice_50_length. lia.
Qed.

(** Every message but an [initial_data] message that carries transcripts
    keeps a list of at most 50 records within 50 records. *)
Lemma capacity_kept_except_initial_data (st : State) (message : WebSocketMessage) :
  (forall received active_calls, message <> initial_data (Some received) active_calls) ->
  (length (transcripts st) <= 50)%nat ->
  (length (transcripts (onmessage Date_parse st message)) <= 50)%nat.
Proof.
  intros Hnot Hlen.
  destruct message as [[received|] [calls|] | [data|] | [data|] | [data|] | ]; simpl;
    try exact Hlen; try lia.
  - exfalso. eapply Hnot. reflexivity.
  - exfalso. eapply Hnot. reflexivity.
  - apply add_transcript_length. exact Hlen.
  - destruct (call_over _); simpl; [lia | exact Hlen].
  - destruct (truthy_string _); simpl; [lia | exact Hlen].
Qed.






Lemma StronglySorted_app_inv {A : Type} (R : A -> A -> Prop) (l1 l2 : list A) :
  StronglySorted R (l1 ++ l2) ->
  StronglySorted R l2 /\ (forall x y, x ∈ l1 -> y ∈ l2 -> R x y).
Proof.
  induction l1 as [|a l1 IH]; simpl; intros Hs.
  - split; [exact Hs |]. intros x y Hx. inversion Hx.
  - inversion Hs as [|? ? Hl Ha]; subst.
    destruct (IH Hl) as [Hs2 Hcross]. split; [exact Hs2 |].
    intros x y Hx Hy. apply elem_of_cons in Hx. destruct Hx as [-> | Hx].
    + rewrite List.Forall_forall in Ha. apply Ha, list_elem_of_In.
      apply elem_of_app. right. exact Hy.
    + apply Hcross; assumption.
Qed.


(** ** Renders between the messages *)

(** [sort] leaves an array that is in ascending order of timestamp as it
    is. *)
Lemma Array_sort_ascending (l : list TranscriptEntry) :
  StronglySorted (ascending Date_parse) l ->
  Array_sort (by_timestamp Date_parse) l = l.
Proof.
  intros Hs. induction Hs as [|x l Hl IH Hx]; [reflexivity |].
  unfold Array_sort in *. simpl. rewrite IH.
  destruct l as [|y l]; [reflexivity |].
  inversion Hx as [|? ? (a & b & Ha & Hb & Hab) _]; subst.
  simpl. unfold SortCompare, by_timestamp. rewrite Ha, Hb. simpl.
  destruct (Z.ltb_spec 0 (a - b)); [lia | reflexivity].
Qed.

Lemma render_sorted (st : State) :
  StronglySorted (ascending Date_parse) (transcripts st) ->
  render Date_parse st = st.
Proof.
  intros Hs. unfold render.
  destruct (0 <? Z.of_nat (length (transcripts st))); [|reflexivity].
  rewrite Array_sort_ascending by exact Hs.
  apply State_eta.
Qed.

Lemma StronglySorted_app_l {A : Type} (R : A -> A -> Prop) (l1 l2 : list A) :
  StronglySorted R (l1 ++ l2) -> StronglySorted R l1.
Proof.
  induction l1 as [|a l1 IH]; simpl; intros Hs; [constructor |].
  inversion Hs as [|? ? Hl Ha]; subst.
  constructor; [apply IH; exact Hl |].
  apply Forall_app in Ha. apply Ha.
Qed.

Lemma StronglySorted_remove {A : Type} (R : A -> A -> Prop) (l1 l2 l3 : list A) :
  StronglySorted R (l1 ++ l2 ++ l3) -> StronglySorted R (l1 ++ l3).
Proof.
  induction l1 as [|a l1 IH]; simpl; intros Hs.
  - apply StronglySorted_app_inv in Hs. apply Hs.
  - inversion Hs as [|? ? Hl Ha]; subst.
    constructor; [apply IH; exact Hl |].
    rewrite !Forall_app in Ha. rewrite Forall_app. tauto.
Qed.

Lemma StronglySorted_drop {A : Type} (R : A -> A -> Prop) (n : nat) (l : list A) :
  StronglySorted R l -> StronglySorted R (drop n l).
Proof.
  intros Hs. rewrite <- (take_drop n l) in Hs.
  apply StronglySorted_app_inv in Hs. apply Hs.
Qed.

(** Fragments that arrive in ascending order of timestamp, into a list
    that is in that order: the renders between the messages change
    nothing. *)
Lemma run_rendered_in_order (fragments : list TranscriptEntry) (st : State) :
  StronglySorted (ascending Date_parse) (transcripts st ++ fragments) ->
  run_rendered Date_parse st (transcript_messages fragments)
  = run Date_parse st (transcript_messages fragments).
Proof.
  revert st. induction fragments as [|f fragments IH]; intros st Hs; [reflexivity |].
  change (run_rendered Date_parse st (transcript_messages (f :: fragments)))
    with (run_rendered Date_parse
            (render Date_parse (onmessage Date_parse st (transcript (Some f))))
            (transcript_messages fragments)).
  change (run Date_parse st (transcript_messages (f :: fragments)))
    with (run Date_parse (onmessage Date_parse st (transcript (Some f)))
              (transcript_messages fragments)).
  assert (Hnext : StronglySorted (ascending Date_parse)
                    (transcripts (onmessage Date_parse st (transcript (Some f)))
                     ++ fragments)).
  { simpl. unfold add_transcript.
    destruct (exists_ Date_parse (transcripts st) f).
    - apply (StronglySorted_remove _ _ [f]). exact Hs.
    - rewrite Array_slice_50.
      rewrite <- drop_app_le by (rewrite length_app; simpl; lia).
      apply StronglySorted_drop. rewrite <- app_assoc. exact Hs. }
  rewrite render_sorted by (eapply StronglySorted_app_l; exact Hnext).
  apply IH. exact Hnext.
Qed.



End Properties.

(** * The handler on concrete messages *)

(** C2, where the handler departs from it: an [initial_data] message with
    51 transcripts of 51 ids leaves 51 records in the retained transcript
    list, one more than the 50 that the [transcript] case keeps. *)
Theorem initial_data_exceeds_capacity :
  transcripts
    (run Runtime.Date_parse initialState
       [initial_data (Some Example.overfull_snapshot) None])
  = Example.overfull_snapshot
  /\ length Example.overfull_snapshot = 51%nat.
Proof. split; vm_compute; reflexivity. Qed.

(** One [transcript] message later the list is back to 50 records. *)
Example capacity_restored_by_next_transcript :
  length
    (transcripts
       (run Runtime.Date_parse initialState
          [initial_data (Some Example.overfull_snapshot) None;
           transcript (Some (Example.entry 51 (Example.at_second 51)))]))
  = 50%nat.
Proof. vm_compute. reflexivity. Qed.

(** C3 does not hold as stated: after a [call_status] message with status
    ended for the active call c1, the session of c1 is still among the
    active calls. *)
Lemma call_status_ended_keeps_session :
  let active := Example.session "active" in
  let ended := Example.session "ended" in
  let st := {| transcripts := [Example.entry 0 (Example.at_second 0)];
               activeCalls := {["c1"%string := active]} |} in
  let st' := onmessage Runtime.Date_parse st
               (call_status (Some (CallStatusData.mk "c1" ended))) in
  transcripts st' = []
  /\ activeCalls st' !! "c1"%string = Some ended
  /\ activeCalls st' !! "c1"%string <> None.
Proof.
  cbv zeta. split; [reflexivity |].
  assert (H : forall (m : gmap string CallSession) (s : CallSession),
             <["c1"%string := s]> m !! "c1"%string = Some s)
    by (intros; apply lookup_insert_eq).
  split; simpl; rewrite H; [reflexivity | discriminate].
Qed.

Lemma call_status_terminal_witness :
  let data := CallStatusData.mk "c1" (Example.session "ENDED") in
  terminal (CallStatusData.session data)
  /\ onmessage Runtime.Date_parse initialState (call_status (Some data))
     = {| transcripts := [];
          activeCalls := <["c1"%string := Example.session "ENDED"]> ∅ |}.
Proof.
  cbv zeta. split.
  - left. reflexivity.
  - apply (call_status_terminal_clears_and_keeps_session Runtime.Date_parse
             initialState (CallStatusData.mk "c1" (Example.session "ENDED"))).
    left. reflexivity.
Defined.

(** C7 does not hold as stated: a [call_removed] message whose call id is
    the empty string is ignored; the call filed under that id stays and
    the transcripts are not cleared. *)
Lemma call_removed_empty_id_ignored :
  let st := {| transcripts := [Example.entry 0 (Example.at_second 0)];
               activeCalls := {[""%string := Example.session "active"]} |} in
  let st' := onmessage Runtime.Date_parse st
               (call_removed (Some (CallRemovedData.mk ""))) in
  st' = st
  /\ transcripts st' <> []
  /\ activeCalls st' !! ""%string <> None.
Proof.
  cbv zeta. split; [reflexivity |]. split.
  - simpl. discriminate.
  - simpl. rewrite lookup_singleton_eq. discriminate.
Qed.

Lemma call_removed_witness :
  let data := CallRemovedData.mk "c1" in
  let st := {| transcripts := [Example.entry 0 (Example.at_second 0)];
               activeCalls := {["c1"%string := Example.session "active"]} |} in
  CallRemovedData.call_id data <> ""%string
  /\ onmessage Runtime.Date_parse st (call_removed (Some data))
     = {| transcripts := []; activeCalls := delete "c1"%string (activeCalls st) |}.
Proof.
  cbv zeta. split.
  - discriminate.
  - apply (call_removed_removes_and_clears Runtime.Date_parse
             {| transcripts := [Example.entry 0 (Example.at_second 0)];
                activeCalls := {["c1"%string := Example.session "active"]} |}
             (CallRemovedData.mk "c1")).
    discriminate.
Defined.



Lemma initial_data_replaces_both_witness :
  let received :=
    [Example.entry 2 (Example.at_second 5);
     Example.entry 1 (Example.at_second 3);
     Example.entry 1 (Example.at_second 4)] in
  let calls : gmap string CallSession := {["c1"%string := Example.session "active"]} in
  let st' := onmessage Runtime.Date_parse initialState
               (initial_data (Some received) (Some calls)) in
  dated Runtime.Date_parse received
  /\ activeCalls st' = calls
  /\ transcripts st'
     = keep_first_ids (Array_sort (by_timestamp Runtime.Date_parse) received).
Proof.
  cbv zeta.
  assert (Hdated : dated Runtime.Date_parse
                     [Example.entry 2 (Example.at_second 5);
                      Example.entry 1 (Example.at_second 3);
                      Example.entry 1 (Example.at_second 4)]).
  { repeat constructor; eexists; vm_compute; reflexivity. }
  split; [exact Hdated |].
  pose proof (initial_data_replaces_both Runtime.Date_parse initialState _
                {["c1"%string := Example.session "active"]} Hdated) as H.
  cbv zeta in H. split; apply H.
Defined.

(** The three records above: sorted by timestamp, and the later record of
    id t1 removed. *)
Example initial_data_sorts_and_deduplicates :
  transcripts
    (onmessage Runtime.Date_parse initialState
       (initial_data
          (Some [Example.entry 2 (Example.at_second 5);
                 Example.entry 1 (Example.at_second 3);
                 Example.entry 1 (Example.at_second 4)])
          None))
  = [Example.entry 1 (Example.at_second 3);
     Example.entry 2 (Example.at_second 5)].
Proof. vm_compute. reflexivity. Qed.

(** * The handler on malformed frames *)

Section RawProperties.

Variable Date_parse : string -> number.
Variable Date_of : json -> Raw.result number.
Variable ToString_of : json -> Raw.result string.
Variable CopyDataProperties_of : json -> gmap string json.





Local Arguments Raw.get : simpl never.
Local Arguments Raw.get_optional : simpl never.
Local Arguments Raw.truthy : simpl never.
Local Arguments Raw.is_type : simpl never.
Local Arguments Raw.String_toLowerCase : simpl never.



End RawProperties.

(** * The two readings of the handler agree

    On a frame that has the declared type, the handler on JSON values does
    what the handler on typed messages does. *)

Section Refinement.

Variable Date_parse : string -> number.
Variable Date_of : json -> Raw.result number.
Variable ToString_of : json -> Raw.result string.
Variable CopyDataProperties_of : json -> gmap string json.

Local Arguments Raw.get : simpl never.
Local Arguments Raw.get_optional : simpl never.

Lemma get_entry_id (e : TranscriptEntry) :
  Raw.get (val (ToJSON.entry e)) "id" = Raw.Return (val (JStr (TranscriptEntry.id e))).
Proof. reflexivity. Qed.

Lemma get_entry_transcript (e : TranscriptEntry) :
  Raw.get (val (ToJSON.entry e)) "transcript"
  = Raw.Return (val (JStr (TranscriptEntry.transcript e))).
Proof. reflexivity. Qed.

Lemma get_entry_role (e : TranscriptEntry) :
  Raw.get (val (ToJSON.entry e)) "role" = Raw.Return (val (JStr (TranscriptEntry.role e))).
Proof. reflexivity. Qed.

Lemma get_entry_timestamp (e : TranscriptEntry) :
  Raw.get (val (ToJSON.entry e)) "timestamp"
  = Raw.Return (val (JStr (TranscriptEntry.timestamp e))).
Proof. reflexivity. Qed.

Lemma same_transcript_refines (data t : TranscriptEntry) :
  Raw.same_transcript Date_parse Date_of (ToJSON.entry data) (ToJSON.entry t)
  = Raw.Return (same_transcript Date_parse data t).
Proof.
  unfold Raw.same_transcript, same_transcript, getTime.
  rewrite !get_entry_id, !get_entry_transcript, !get_entry_role, !get_entry_timestamp.
  simpl. unfold Raw.strict_equal. simpl.
  destruct (String.eqb (TranscriptEntry.id t) (TranscriptEntry.id data)); [reflexivity |].
  destruct (String.eqb (TranscriptEntry.transcript t) (TranscriptEntry.transcript data));
    [|reflexivity].
  destruct (String.eqb (TranscriptEntry.role t) (TranscriptEntry.role data));
    reflexivity.
Qed.

Lemma Array_some_refines (data : TranscriptEntry) (prev : list TranscriptEntry) :
  Raw.Array_some (Raw.same_transcript Date_parse Date_of (ToJSON.entry data))
                 (map ToJSON.entry prev)
  = Raw.Return (exists_ Date_parse prev data).
Proof.
  unfold exists_, Array_some.
  induction prev as [|t prev IH]; [reflexivity |].
  simpl. rewrite same_transcript_refines. simpl.
  destruct (same_transcript Date_parse data t); [reflexivity | exact IH].
Qed.

Lemma Array_slice_map {A B : Type} (f : A -> B) (start : Z) (l : list A) :
  Array_slice start (map f l) = map f (Array_slice start l).
Proof.
  unfold Array_slice. rewrite length_map. symmetry. apply fmap_drop.
Qed.

Lemma add_transcript_refines (data : TranscriptEntry) (prev : list TranscriptEntry) :
  Raw.add_transcript Date_parse Date_of (ToJSON.entry data) (map ToJSON.entry prev)
  = Raw.Return (map ToJSON.entry (add_transcript Date_parse data prev)).
Proof.
  unfold Raw.add_transcript, add_transcript.
  rewrite Array_some_refines. simpl.
  destruct (exists_ Date_parse prev data); [reflexivity |].
  change [ToJSON.entry data] with (map ToJSON.entry [data]).
  rewrite <- map_app, Array_slice_map. reflexivity.
Qed.

Lemma by_timestamp_refines (a b : TranscriptEntry) :
  Raw.by_timestamp Date_parse Date_of (ToJSON.entry a) (ToJSON.entry b)
  = Raw.Return (by_timestamp Date_parse a b).
Proof.
  unfold Raw.by_timestamp. rewrite !get_entry_timestamp. reflexivity.
Qed.

Lemma sort_insert_refines (x : TranscriptEntry) (l : list TranscriptEntry) :
  Raw.sort_insert (Raw.by_timestamp Date_parse Date_of) (ToJSON.entry x)
                  (map ToJSON.entry l)
  = Raw.Return (map ToJSON.entry (sort_insert (by_timestamp Date_parse) x l)).
Proof.
  induction l as [|y l IH]; [reflexivity |].
  simpl. rewrite by_timestamp_refines. simpl.
  unfold SortCompare.
  destruct (0 <? match by_timestamp Date_parse x y with Some v => v | None => 0 end);
    [|reflexivity].
  rewrite IH. reflexivity.
Qed.

Lemma Array_sort_refines (l : list TranscriptEntry) :
  Raw.Array_sort (Raw.by_timestamp Date_parse Date_of) (map ToJSON.entry l)
  = Raw.Return (map ToJSON.entry (Array_sort (by_timestamp Date_parse) l)).
Proof.
  induction l as [|x l IH]; [reflexivity |].
  simpl. rewrite IH. simpl. apply sort_insert_refines.
Qed.

Lemma findIndex_refines (x : TranscriptEntry) (index k : Z) (l : list TranscriptEntry) :
  Raw.findIndex_from
    (fun (t : json) (j : Z) =>
       Raw.bind (Raw.get (val t) "id") (fun t_id =>
       Raw.bind (Raw.get (val (ToJSON.entry x)) "id") (fun transcript_id =>
       Raw.Return (Raw.strict_equal_at (j =? index) t_id transcript_id))))
    k (map ToJSON.entry l)
  = Raw.Return (findIndex_from (same_id x) k l).
Proof.
  revert k. induction l as [|t l IH]; intros k; [reflexivity |].
  cbn [Raw.findIndex_from List.map findIndex_from].
  rewrite !get_entry_id. simpl. unfold same_id at 1.
  destruct (String.eqb (TranscriptEntry.id t) (TranscriptEntry.id x)); [reflexivity |].
  apply IH.
Qed.

Lemma filter_refines (arr l : list TranscriptEntry) (k : Z) :
  Raw.filter_from
    (fun (transcript : json) (index : Z) =>
       Raw.bind
         (Raw.Array_findIndex
            (fun (t : json) (j : Z) =>
               Raw.bind (Raw.get (val t) "id") (fun t_id =>
               Raw.bind (Raw.get (val transcript) "id") (fun transcript_id =>
               Raw.Return (Raw.strict_equal_at (j =? index) t_id transcript_id))))
            (map ToJSON.entry arr))
         (fun found => Raw.Return (index =? found)))
    k (map ToJSON.entry l)
  = Raw.Return
      (map ToJSON.entry
         (filter_from (fun x i => i =? Array_findIndex (same_id x) arr) k l)).
Proof.
  revert k. induction l as [|x l IH]; intros k; [reflexivity |].
  cbn [Raw.filter_from List.map filter_from].
  unfold Raw.Array_findIndex. rewrite findIndex_refines.
  cbn [Raw.bind]. rewrite IH. cbn [Raw.bind]. unfold Array_findIndex.
  destruct (k =? findIndex_from (same_id x) 0 arr); reflexivity.
Qed.

Lemma uniqueTranscripts_refines (received : list TranscriptEntry) :
  Raw.uniqueTranscripts Date_parse Date_of (map ToJSON.entry received)
  = Raw.Return (map ToJSON.entry (uniqueTranscripts Date_parse received)).
Proof.
  unfold Raw.uniqueTranscripts, uniqueTranscripts, Raw.Array_filter, Array_filter.
  rewrite Array_sort_refines. simpl. apply filter_refines.
Qed.

(** *** What the body queues, case by case *)

Local Arguments Raw.truthy : simpl never.

Local Abbreviation body := (Raw.body Date_parse Date_of ToString_of CopyDataProperties_of).

Lemma body_transcripts_cleared (message : json) :
  Raw.get (val message) "type" = Raw.Return (val (JStr "transcripts_cleared")) ->
  body (Raw.Return message)
  = ([Raw.setTranscripts (fun _ => Raw.Return [])], Raw.Return tt).
Proof. intros Htype. unfold Raw.body. simpl. rewrite Htype. reflexivity. Qed.

Lemma body_transcript (message data : json) :
  Raw.get (val message) "type" = Raw.Return (val (JStr "transcript")) ->
  Raw.get (val message) "data" = Raw.Return (val data) ->
  Raw.truthy (val data) = true ->
  body (Raw.Return message)
  = ([Raw.setTranscripts (Raw.add_transcript Date_parse Date_of data)], Raw.Return tt).
Proof.
  intros Htype Hdata Htruthy. unfold Raw.body. simpl. rewrite Htype. simpl.
  rewrite Hdata. simpl. rewrite Htruthy. reflexivity.
Qed.

Lemma body_without_data (message : json) (type : string) :
  type = "transcript"%string \/ type = "call_status"%string
  \/ type = "call_removed"%string ->
  Raw.get (val message) "type" = Raw.Return (val (JStr type)) ->
  Raw.get (val message) "data" = Raw.Return undefined ->
  body (Raw.Return message) = ([], Raw.Return tt).
Proof.
  intros Hknown Htype Hdata. unfold Raw.body. simpl. rewrite Htype.
  destruct Hknown as [-> | [-> | ->]]; simpl; rewrite Hdata; reflexivity.
Qed.

Lemma body_call_status (message data session : json) (call_id status : string) :
  Raw.get (val message) "type" = Raw.Return (val (JStr "call_status")) ->
  Raw.get (val message) "data" = Raw.Return (val data) ->
  Raw.truthy (val data) = true ->
  Raw.get (val data) "session" = Raw.Return (val session) ->
  Raw.get (val session) "status" = Raw.Return (val (JStr status)) ->
  Raw.get (val data) "call_id" = Raw.Return (val (JStr call_id)) ->
  body (Raw.Return message)
  = (Raw.setActiveCalls
       (Raw.upsert_call ToString_of CopyDataProperties_of (val data) session)
     :: (if String.eqb (toLowerCase status) "ended"
            || String.eqb (toLowerCase status) "failed"
         then [Raw.setTranscripts (fun _ => Raw.Return [])]
         else []),
     Raw.Return tt).
Proof.
  intros Htype Hdata Htruthy Hsession Hstatus Hid. unfold Raw.body. simpl.
  rewrite Htype. simpl. rewrite Hdata. simpl. rewrite Htruthy.
  rewrite Hsession. simpl. rewrite Hstatus. simpl.
  unfold Raw.log_call. rewrite Hid. simpl.
  destruct (String.eqb (toLowerCase status) "ended"
            || String.eqb (toLowerCase status) "failed"); reflexivity.
Qed.

Lemma body_call_removed (message data : json) (call_id : string) :
  Raw.get (val message) "type" = Raw.Return (val (JStr "call_removed")) ->
  Raw.get (val message) "data" = Raw.Return (val data) ->
  Raw.get (val data) "call_id" = Raw.Return (val (JStr call_id)) ->
  body (Raw.Return message)
  = (if truthy_string call_id
     then [Raw.setActiveCalls
             (Raw.remove_call ToString_of CopyDataProperties_of (val data));
           Raw.setTranscripts (fun _ => Raw.Return [])]
     else [],
     Raw.Return tt).
Proof.
  intros Htype Hdata Hid. unfold Raw.body. simpl. rewrite Htype. simpl.
  rewrite Hdata. simpl.
  assert (Hopt : Raw.get_optional (val data) "call_id" = Raw.Return (val (JStr call_id))).
  { unfold Raw.get_optional. destruct data; try exact Hid.
    unfold Raw.get in Hid. discriminate. }
  rewrite Hopt. simpl. unfold Raw.log_call. rewrite Hid. simpl.
  unfold Raw.truthy. destruct (truthy_string call_id); reflexivity.
Qed.

Lemma body_initial_data (message : json) (received active_calls : value) :
  Raw.get (val message) "type" = Raw.Return (val (JStr "initial_data")) ->
  Raw.get (val message) "transcripts" = Raw.Return received ->
  Raw.get (val message) "active_calls" = Raw.Return active_calls ->
  (received = undefined
   \/ exists arr unique,
        received = val (JArr arr)
        /\ Raw.uniqueTranscripts Date_parse Date_of arr = Raw.Return unique) ->
  (active_calls = undefined \/ exists calls, active_calls = val (JObj calls)) ->
  body (Raw.Return message)
  = (match received with
     | val (JArr arr) =>
         match Raw.uniqueTranscripts Date_parse Date_of arr with
         | Raw.Return unique => [Raw.setTranscripts (fun _ => Raw.Return unique)]
         | Raw.Throw _ => []
         end
     | _ => []
     end
     ++ match active_calls with
        | val calls => [Raw.setActiveCalls (fun _ => Raw.Return calls)]
        | undefined => []
        end,
     Raw.Return tt).
Proof.
  intros Htype Hreceived Hcalls Hr Hc. unfold Raw.body. simpl. rewrite Htype. simpl.
  rewrite Hreceived. simpl.
  destruct Hr as [-> | (arr & unique & -> & Hunique)];
    destruct Hc as [-> | (calls & ->)]; unfold Raw.truthy; simpl;
    rewrite ?Hunique; simpl; rewrite Hcalls; reflexivity.
Qed.

(** *** The updaters *)

Lemma upsert_call_refines (data : CallStatusData.t) (calls : gmap string CallSession) :
  Raw.upsert_call ToString_of CopyDataProperties_of
    (val (ToJSON.call_status_data data))
    (ToJSON.session (CallStatusData.session data))
    (JObj (ToJSON.session <$> calls))
  = Raw.Return
      (JObj (ToJSON.session
               <$> <[CallStatusData.call_id data := CallStatusData.session data]> calls)).
Proof.
  unfold Raw.upsert_call.
  change (Raw.get (val (ToJSON.call_status_data data)) "call_id")
    with (Raw.Return (val (JStr (CallStatusData.call_id data)))).
  simpl. rewrite fmap_insert. reflexivity.
Qed.

Lemma remove_call_refines (data : CallRemovedData.t) (calls : gmap string CallSession) :
  Raw.remove_call ToString_of CopyDataProperties_of
    (val (ToJSON.call_removed_data data))
    (JObj (ToJSON.session <$> calls))
  = Raw.Return
      (JObj (ToJSON.session <$> delete (CallRemovedData.call_id data) calls)).
Proof.
  unfold Raw.remove_call.
  change (Raw.get (val (ToJSON.call_removed_data data)) "call_id")
    with (Raw.Return (val (JStr (CallRemovedData.call_id data)))).
  simpl. rewrite fmap_delete. reflexivity.
Qed.

(** X10: on a frame of the declared type, the handler on JSON values ends
    without an exception, in the state that the handler on typed messages
    gives. *)
Theorem handlers_agree (st : State) (message : WebSocketMessage) :
  Raw.onmessage Date_parse Date_of ToString_of CopyDataProperties_of
    (ToJSON.state st) (Raw.Return (ToJSON.message message))
  = Raw.Return (ToJSON.state (onmessage Date_parse st message)).
Proof.
  unfold Raw.onmessage.
  destruct message as [received active_calls | [data|] | [data|] | [data|] | ].
  - assert (Hbody :
      fst (body (Raw.Return (ToJSON.message (initial_data received active_calls))))
      = match received with
        | Some r => [Raw.setTranscripts
                       (fun _ => Raw.Return
                                   (map ToJSON.entry (uniqueTranscripts Date_parse r)))]
        | None => []
        end
        ++ match active_calls with
           | Some c => [Raw.setActiveCalls
                          (fun _ => Raw.Return (JObj (ToJSON.session <$> c)))]
           | None => []
           end
      /\ snd (body (Raw.Return (ToJSON.message (initial_data received active_calls))))
         = Raw.Return tt).
    { pose proof uniqueTranscripts_refines as Hunique.
      destruct received as [r|], active_calls as [c|].
      - rewrite (body_initial_data _ (val (JArr (map ToJSON.entry r)))
                   (val (JObj (ToJSON.session <$> c))));
          [ | reflexivity | reflexivity | reflexivity
            | right; eexists _, _; split; [reflexivity | apply Hunique]
            | right; eexists; reflexivity ].
        rewrite Hunique. split; reflexivity.
      - rewrite (body_initial_data _ (val (JArr (map ToJSON.entry r))) undefined);
          [ | reflexivity | reflexivity | reflexivity
            | right; eexists _, _; split; [reflexivity | apply Hunique]
            | left; reflexivity ].
        rewrite Hunique. split; reflexivity.
      - rewrite (body_initial_data _ undefined (val (JObj (ToJSON.session <$> c))));
          [ | reflexivity | reflexivity | reflexivity
            | left; reflexivity
            | right; eexists; reflexivity ].
        split; reflexivity.
      - rewrite (body_initial_data _ undefined undefined);
          [ | reflexivity | reflexivity | reflexivity
            | left; reflexivity | left; reflexivity ].
        split; reflexivity. }
    destruct Hbody as [Hq Hr].
    destruct (body (Raw.Return (ToJSON.message (initial_data received active_calls))))
      as [q r]. simpl in Hq, Hr. subst q r. simpl.
    destruct received as [r|], active_calls as [c|]; reflexivity.
  - erewrite body_transcript; [| reflexivity | reflexivity | reflexivity].
    simpl. unfold Raw.apply_updates. simpl.
    rewrite add_transcript_refines. reflexivity.
  - erewrite (body_without_data _ "transcript"); [| tauto | reflexivity | reflexivity].
    reflexivity.
  - erewrite (body_call_status _ _ _ (CallStatusData.call_id data)
                (CallSession.status (CallStatusData.session data)));
      [| reflexivity | reflexivity | reflexivity | reflexivity | reflexivity | reflexivity].
    simpl. unfold call_over.
    destruct (String.eqb (toLowerCase (CallSession.status (CallStatusData.session data))) "ended"
              || String.eqb (toLowerCase (CallSession.status (CallStatusData.session data))) "failed");
      unfold Raw.apply_updates; simpl; rewrite upsert_call_refines; reflexivity.
  - erewrite (body_without_data _ "call_status"); [| tauto | reflexivity | reflexivity].
    reflexivity.
  - erewrite (body_call_removed _ _ (CallRemovedData.call_id data));
      [| reflexivity | reflexivity | reflexivity].
    simpl. destruct (truthy_string (CallRemovedData.call_id data)); [|reflexivity].
    unfold Raw.apply_updates. simpl. rewrite remove_call_refines. reflexivity.
  - erewrite (body_without_data _ "call_removed"); [| tauto | reflexivity | reflexivity].
    reflexivity.
  - erewrite body_transcripts_cleared; [| reflexivity]. reflexivity.
Qed.

End Refinement.

(** * Frames that do not have the declared type *)


(** The frames named by the claim, and two more, are malformed. *)
Example malformed_frames :
  Raw.Malformed (Raw.Throw Raw.SyntaxError)
  /\ Raw.Malformed (Raw.Return JNull)
  /\ Raw.Malformed (Raw.Return Example.pong)
  /\ Raw.Malformed (Raw.Return Example.transcript_without_data)
  /\ Raw.Malformed (Raw.Return Example.call_removed_without_call_id)
  /\ Raw.Malformed (Raw.Return Example.call_status_without_session).
Proof.
  repeat split.
  - constructor.
  - apply Raw.no_type. reflexivity.
  - eapply Raw.unknown_type; reflexivity.
  - eapply Raw.transcript_without_data; [reflexivity | reflexivity | left; reflexivity].
  - eapply Raw.call_removed_without_call_id;
      [reflexivity | reflexivity | reflexivity | left; reflexivity].
  - eapply Raw.call_status_without_session;
      [reflexivity | reflexivity | reflexivity | left; reflexivity].
Qed.

(** What is caught on the way: the frame that is not JSON and the
    [call_status] frame without a session end in the [catch] clause, the
    others run through. *)
Example malformed_frames_caught :
  Raw.caught Runtime.Date_parse Runtime.Date_of Runtime.ToString_of
    Runtime.CopyDataProperties_of (Raw.Throw Raw.SyntaxError)
  = Some Raw.SyntaxError
  /\ Raw.caught Runtime.Date_parse Runtime.Date_of Runtime.ToString_of
       Runtime.CopyDataProperties_of (Raw.Return JNull)
     = Some Raw.TypeError
  /\ Raw.caught Runtime.Date_parse Runtime.Date_of Runtime.ToString_of
       Runtime.CopyDataProperties_of (Raw.Return Example.call_status_without_session)
     = Some Raw.TypeError
  /\ Raw.caught Runtime.Date_parse Runtime.Date_of Runtime.ToString_of
       Runtime.CopyDataProperties_of (Raw.Return Example.transcript_without_data)
     = None
  /\ Raw.caught Runtime.Date_parse Runtime.Date_of Runtime.ToString_of
       Runtime.CopyDataProperties_of (Raw.Return Example.pong)
     = None.
Proof. repeat split; reflexivity. Qed.

(** A [call_status] frame that has a session and no [call_id] is not
    among the malformed ones: the handler files the session under the key
    [undefined]. *)
Example call_status_without_call_id_is_filed :
  exists calls,
    Raw.onmessage Runtime.Date_parse Runtime.Date_of Runtime.ToString_of
      Runtime.CopyDataProperties_of
      Raw.initialState (Raw.Return Example.call_status_without_call_id)
    = Raw.Return {| Raw.transcripts := []; Raw.activeCalls := JObj calls |}
    /\ calls !! "undefined"%string
       = Some (Example.object [("status", JStr "active")]%string).
Proof.
  eexists. split; [reflexivity |]. reflexivity.
Qed.

(** * Further properties of the handler *)

Section Invariants.

Variable Date_parse : string -> number.

(** ** Redelivery *)

Lemma same_transcript_refl (data : TranscriptEntry) :
  same_transcript Date_parse data data = true.
Proof. unfold same_transcript. rewrite String.eqb_refl. reflexivity. Qed.

Lemma add_transcript_retains (data : TranscriptEntry) (prev : list TranscriptEntry) :
  exists_ Date_parse (add_transcript Date_parse data prev) data = true.
Proof.
  unfold add_transcript. destruct (exists_ Date_parse prev data) eqn:E; [exact E |].
  rewrite Array_slice_50_push. unfold exists_, Array_some.
  rewrite existsb_app. simpl. rewrite same_transcript_refl.
  rewrite orb_true_r. reflexivity.
Qed.

(** X1: a message delivered twice in a row leaves the state that one
    delivery leaves, whatever its type: the second [transcript] is found to
    be a duplicate of the first, the second snapshot, upsert, removal or
    clearing writes what the first wrote. *)
Theorem redelivery_changes_nothing (st : State) (message : WebSocketMessage) :
  onmessage Date_parse (onmessage Date_parse st message) message
  = onmessage Date_parse st message.
Proof.
  destruct message as [[received|] [calls|] | [data|] | [data|] | [data|] | ];
    try reflexivity.
  - simpl. unfold setTranscripts. simpl. f_equal.
    unfold add_transcript at 1. rewrite add_transcript_retains. reflexivity.
  - simpl. destruct (call_over (CallStatusData.session data)); simpl;
      unfold setTranscripts, setActiveCalls; simpl;
      rewrite insert_insert_eq; reflexivity.
  - simpl. destruct (truthy_string (CallRemovedData.call_id data)) eqn:E; simpl;
      rewrite ?E; [|reflexivity].
    unfold setTranscripts, setActiveCalls. simpl. f_equal.
    apply delete_id, lookup_delete_eq.
Qed.

(** ** What a render keeps *)

Lemma render_transcripts (st : State) :
  transcripts (render Date_parse st) ≡ₚ transcripts st.
Proof.
  unfold render. destruct (0 <? Z.of_nat (length (transcripts st))); [|reflexivity].
  simpl. apply Array_sort_perm.
Qed.

Lemma render_activeCalls (st : State) :
  activeCalls (render Date_parse st) = activeCalls st.
Proof.
  unfold render. destruct (0 <? Z.of_nat (length (transcripts st))); reflexivity.
Qed.

Lemma exists_Permutation (l l' : list TranscriptEntry) (data : TranscriptEntry) :
  l ≡ₚ l' -> exists_ Date_parse l data = exists_ Date_parse l' data.
Proof.
  intros Hperm. unfold exists_, Array_some.
  induction Hperm as [|x l l' _ IH|x y l|l l' l'' _ IH1 _ IH2]; simpl.
  - reflexivity.
  - rewrite IH. reflexivity.
  - destruct (same_transcript Date_parse data x),
             (same_transcript Date_parse data y); reflexivity.
  - congruence.
Qed.

(** X2: a render keeps the records (it only reorders them), keeps the
    active calls, and does not change which fragments the next [transcript]
    message will find to be duplicates. *)
Theorem render_keeps_records (st : State) :
  transcripts (render Date_parse st) ≡ₚ transcripts st
  /\ activeCalls (render Date_parse st) = activeCalls st
  /\ forall data : TranscriptEntry,
       exists_ Date_parse (transcripts (render Date_parse st)) data
       = exists_ Date_parse (transcripts st) data.
Proof.
  split; [apply render_transcripts |]. split; [apply render_activeCalls |].
  intros data. apply exists_Permutation, render_transcripts.
Qed.

(** X3: when every timestamp is a date, a render leaves the retained
    records in ascending order of timestamp, records of one timestamp in
    the order they had, and a second render changes nothing more. *)
Theorem render_sorts_once (st : State) :
  dated Date_parse (transcripts st) ->
  StronglySorted (ascending Date_parse) (transcripts (render Date_parse st))
  /\ (forall k : Z,
        List.filter (fun x => time_of Date_parse x =? k)
                    (transcripts (render Date_parse st))
        = List.filter (fun x => time_of Date_parse x =? k) (transcripts st))
  /\ render Date_parse (render Date_parse st) = render Date_parse st.
Proof.
  intros Hdated.
  assert (Hsorted : StronglySorted (ascending Date_parse)
                      (transcripts (render Date_parse st))).
  { unfold render.
    destruct (Z.ltb_spec 0 (Z.of_nat (length (transcripts st)))) as [Hlen | Hlen].
    - simpl. apply sorted_by_time_ascending.
      + apply Array_sort_Forall. exact Hdated.
      + eapply Array_sort_sorted; [apply by_timestamp_key | exact Hdated].
    - destruct (transcripts st); [constructor | simpl in Hlen; lia]. }
  split; [exact Hsorted |]. split.
  - intros k. unfold render.
    destruct (0 <? Z.of_nat (length (transcripts st))); [|reflexivity].
    simpl. eapply Array_sort_stable; [apply by_timestamp_key | exact Hdated].
  - apply render_sorted. exact Hsorted.
Qed.

(** ** Invariants of the retained list *)

Lemma exists_false_id (prev : list TranscriptEntry) (data : TranscriptEntry) :
  exists_ Date_parse prev data = false ->
  TranscriptEntry.id data ∉ map TranscriptEntry.id prev.
Proof.
  intros Hfresh Hin. apply exists_false in Hfresh. apply Hfresh.
  apply list_elem_of_fmap in Hin. destruct Hin as (t & Hid & Hin).
  exists t. split; [exact Hin |]. left. congruence.
Qed.

Lemma NoDup_ids_drop (n : nat) (l : list TranscriptEntry) :
  NoDup (map TranscriptEntry.id l) -> NoDup (map TranscriptEntry.id (drop n l)).
Proof.
  intros H. rewrite <- (take_drop n l), map_app in H.
  apply NoDup_app in H. apply H.
Qed.

Lemma add_transcript_NoDup (data : TranscriptEntry) (prev : list TranscriptEntry) :
  NoDup (map TranscriptEntry.id prev) ->
  NoDup (map TranscriptEntry.id (add_transcript Date_parse data prev)).
Proof.
  intros Hnodup. unfold add_transcript.
  destruct (exists_ Date_parse prev data) eqn:E; [exact Hnodup |].
  rewrite Array_slice_50_push, map_app. apply NoDup_app.
  split; [apply NoDup_ids_drop; exact Hnodup |]. split.
  - intros x Hx Hx'. simpl in Hx'. apply list_elem_of_singleton in Hx'. subst x.
    apply (exists_false_id _ _ E).
    rewrite <- (take_drop (length prev - 49) prev), map_app.
    apply elem_of_app. right. exact Hx.
  - simpl. apply NoDup_singleton.
Qed.

Lemma onmessage_NoDup (st : State) (message : WebSocketMessage) :
  NoDup (map TranscriptEntry.id (transcripts st)) ->
  NoDup (map TranscriptEntry.id (transcripts (onmessage Date_parse st message))).
Proof.
  intros Hnodup.
  destruct message as [[received|] [calls|] | [data|] | [data|] | [data|] | ]; simpl;
    try exact Hnodup; try apply NoDup_nil_2.
  - rewrite uniqueTranscripts_keep_first. apply keep_first_ids_after_NoDup.
  - rewrite uniqueTranscripts_keep_first. apply keep_first_ids_after_NoDup.
  - apply add_transcript_NoDup. exact Hnodup.
  - destruct (call_over _); simpl; [apply NoDup_nil_2 | exact Hnodup].
  - destruct (truthy_string _); simpl; [apply NoDup_nil_2 | exact Hnodup].
Qed.

(** X4: the ids of the retained records stay pairwise different through
    any sequence of messages and renders: a snapshot is deduplicated by id,
    and a fragment whose id is retained is not appended. *)
Theorem ids_stay_unique (st : State) (steps : list Step) :
  NoDup (map TranscriptEntry.id (transcripts st)) ->
  NoDup (map TranscriptEntry.id (transcripts (run_steps Date_parse st steps))).
Proof.
  revert st. induction steps as [|s steps IH]; intros st Hnodup; [exact Hnodup |].
  apply IH. destruct s as [message|]; simpl.
  - apply onmessage_NoDup. exact Hnodup.
  - eapply NoDup_Permutation_proper; [|exact Hnodup].
    apply fmap_Permutation, render_transcripts.
Qed.

Lemma render_length (st : State) :
  length (transcripts (render Date_parse st)) = length (transcripts st).
Proof. apply Permutation_length, render_transcripts. Qed.

(** X5: as long as no snapshot of the transcripts arrives, a retained list
    of at most 50 records stays at most 50 records long through any
    sequence of messages and renders. *)
Theorem capacity_kept_without_snapshot (st : State) (steps : list Step) :
  Forall (fun s => ~ is_snapshot s) steps ->
  (length (transcripts st) <= 50)%nat ->
  (length (transcripts (run_steps Date_parse st steps)) <= 50)%nat.
Proof.
  revert st. induction steps as [|s steps IH]; intros st Hsteps Hlen; [exact Hlen |].
  inversion Hsteps as [|? ? Hs Hrest]; subst.
  apply IH; [exact Hrest |]. destruct s as [message|]; simpl.
  - apply capacity_kept_except_initial_data; [|exact Hlen].
    intros received active_calls ->. apply Hs. eexists _, _. reflexivity.
  - rewrite render_length. exact Hlen.
Qed.

(** ** No two retained records duplicate each other *)

Lemma duplicate_of_sym (a b : TranscriptEntry) :
  duplicate_of Date_parse a b -> duplicate_of Date_parse b a.
Proof.
  intros [Hid | (Hrole & Htext & x & y & Hx & Hy & Hlt)]; [left; congruence | right].
  split; [congruence |]. split; [congruence |].
  exists y, x. split; [exact Hy |]. split; [exact Hx |]. lia.
Qed.

Lemma ForallOrdPairs_snoc {A : Type} (R : A -> A -> Prop) (l : list A) (d : A) :
  ForallOrdPairs R l -> Forall (fun a => R a d) l -> ForallOrdPairs R (l ++ [d]).
Proof.
  intros Hl Hd. induction Hl as [|a l Ha Hl IH]; simpl.
  - constructor; constructor.
  - inversion Hd; subst. constructor; [|apply IH; assumption].
    apply Forall_app. split; [exact Ha |]. constructor; [assumption | constructor].
Qed.

Lemma ForallOrdPairs_drop {A : Type} (R : A -> A -> Prop) (n : nat) (l : list A) :
  ForallOrdPairs R l -> ForallOrdPairs R (drop n l).
Proof.
  revert n. induction l as [|a l IH]; intros n H; destruct n; simpl; try exact H.
  inversion H; subst. apply IH. assumption.
Qed.

Lemma ForallOrdPairs_Permutation {A : Type} (R : A -> A -> Prop) (l l' : list A) :
  (forall a b, R a b -> R b a) ->
  l ≡ₚ l' -> ForallOrdPairs R l -> ForallOrdPairs R l'.
Proof.
  intros Hsym Hperm.
  induction Hperm as [|x l l' Hperm IH|x y l|l l' l'' _ IH1 _ IH2]; intros H.
  - exact H.
  - inversion H; subst. constructor; [|apply IH; assumption].
    eapply Permutation_Forall; eassumption.
  - inversion H as [|? ? Hy Hrest]; subst. inversion Hrest as [|? ? Hx Hl]; subst.
    inversion Hy as [|? ? Hyx Hyl]; subst.
    constructor; [constructor; [apply Hsym; exact Hyx | exact Hx] |].
    constructor; assumption.
  - apply IH2, IH1, H.
Qed.

Lemma add_transcript_duplicate_free (data : TranscriptEntry) (prev : list TranscriptEntry) :
  duplicate_free Date_parse prev ->
  duplicate_free Date_parse (add_transcript Date_parse data prev).
Proof.
  intros Hfree. unfold add_transcript.
  destruct (exists_ Date_parse prev data) eqn:E; [exact Hfree |].
  rewrite Array_slice_50_push. apply ForallOrdPairs_snoc.
  - apply ForallOrdPairs_drop. exact Hfree.
  - apply exists_false in E. apply List.Forall_forall. intros t Ht Hdup.
    apply E. exists t. split; [|exact Hdup].
    rewrite <- (take_drop (length prev - 49) prev). apply elem_of_app. right.
    apply list_elem_of_In. exact Ht.
Qed.

(** X6: as long as no snapshot of the transcripts arrives, the retained
    list never comes to hold two records of which one duplicates the other
    (same id, or same role and text less than a second apart), through any
    sequence of messages and renders. *)
Theorem duplicates_never_stored (st : State) (steps : list Step) :
  Forall (fun s => ~ is_snapshot s) steps ->
  duplicate_free Date_parse (transcripts st) ->
  duplicate_free Date_parse (transcripts (run_steps Date_parse st steps)).
Proof.
  revert st. induction steps as [|s steps IH]; intros st Hsteps Hfree; [exact Hfree |].
  inversion Hsteps as [|? ? Hs Hrest]; subst.
  apply IH; [exact Hrest |]. destruct s as [message|]; simpl.
  - destruct message as [[received|] [calls|] | [data|] | [data|] | [data|] | ]; simpl;
      try exact Hfree; try constructor.
    + exfalso. apply Hs. eexists _, _. reflexivity.
    + exfalso. apply Hs. eexists _, _. reflexivity.
    + apply add_transcript_duplicate_free. exact Hfree.
    + destruct (call_over _); simpl; [constructor | exact Hfree].
    + destruct (truthy_string _); simpl; [constructor | exact Hfree].
  - eapply ForallOrdPairs_Permutation; [| symmetry; apply render_transcripts | exact Hfree].
    intros a b Hab Hdup. apply Hab, duplicate_of_sym. exact Hdup.
Qed.

(** ** Fragments that arrive in order *)

Lemma transcript_messages_cons_inv (message : WebSocketMessage)
    (messages : list WebSocketMessage) (fragments : list TranscriptEntry) :
  message :: messages = transcript_messages fragments ->
  exists f fragments',
    fragments = f :: fragments' /\ message = transcript (Some f)
    /\ messages = transcript_messages fragments'.
Proof.
  destruct fragments as [|f fragments']; [discriminate |].
  intros H. inversion H. eauto.
Qed.

(** X7: when the fragments arrive in ascending order of timestamp into a
    list that is in that order, renders change nothing: however renders
    are interleaved with the [transcript] messages, the state at the end is
    the one the messages alone give. *)
Theorem renders_immaterial_in_order
    (steps : list Step) (st : State) (fragments : list TranscriptEntry) :
  messages_of steps = transcript_messages fragments ->
  StronglySorted (ascending Date_parse) (transcripts st ++ fragments) ->
  run_steps Date_parse st steps
  = run Date_parse st (transcript_messages fragments).
Proof.
  revert st fragments. induction steps as [|s steps IH]; intros st fragments Hm Hs.
  - destruct fragments; [reflexivity | discriminate].
  - destruct s as [message|].
    + simpl in Hm. apply transcript_messages_cons_inv in Hm.
      destruct Hm as (f & fragments' & -> & -> & Hm).
      change (run_steps Date_parse st (handle (transcript (Some f)) :: steps))
        with (run_steps Date_parse (onmessage Date_parse st (transcript (Some f))) steps).
      change (run Date_parse st (transcript_messages (f :: fragments')))
        with (run Date_parse (onmessage Date_parse st (transcript (Some f)))
                  (transcript_messages fragments')).
      apply IH; [exact Hm |].
      simpl. unfold add_transcript.
      destruct (exists_ Date_parse (transcripts st) f).
      * apply (StronglySorted_remove _ _ [f]). exact Hs.
      * rewrite Array_slice_50.
        rewrite <- drop_app_le by (rewrite length_app; simpl; lia).
        apply StronglySorted_drop. rewrite <- app_assoc. exact Hs.
    + change (run_steps Date_parse st (rerender :: steps))
        with (run_steps Date_parse (render Date_parse st) steps).
      rewrite render_sorted by (eapply StronglySorted_app_l; exact Hs).
      apply IH; assumption.
Qed.

(** ** The active calls *)

(** X8: the entry of a call in the active calls is written only by a
    [call_status] or [call_removed] message that names the call and by a
    snapshot of the active calls; every other message, and every render,
    leaves it as it is. *)
Theorem other_calls_untouched (st : State) (steps : list Step) (k : string) :
  Forall (fun message => ~ concerns message k) (messages_of steps) ->
  activeCalls (run_steps Date_parse st steps) !! k = activeCalls st !! k.
Proof.
  revert st. induction steps as [|s steps IH]; intros st Hsteps; [reflexivity |].
  destruct s as [message|].
  - simpl in Hsteps. inversion Hsteps as [|? ? Hm Hrest]; subst.
    change (run_steps Date_parse st (handle message :: steps))
      with (run_steps Date_parse (onmessage Date_parse st message) steps).
    rewrite IH by exact Hrest.
    destruct message as [[received|] [calls|] | [data|] | [data|] | [data|] | ];
      simpl in *; try reflexivity; try (exfalso; apply Hm; exact I).
    + destruct (call_over _); simpl; apply lookup_insert_ne; exact Hm.
    + destruct (truthy_string _); simpl; [|reflexivity].
      apply lookup_delete_ne. exact Hm.
  - change (run_steps Date_parse st (rerender :: steps))
      with (run_steps Date_parse (render Date_parse st) steps).
    rewrite IH by exact Hsteps. rewrite render_activeCalls. reflexivity.
Qed.

(** ** A snapshot that is already in order *)

Lemma keep_first_ids_after_id (earlier l : list TranscriptEntry) :
  NoDup (map TranscriptEntry.id (earlier ++ l)) ->
  keep_first_ids_after earlier l = l.
Proof.
  revert earlier. induction l as [|x l IH]; intros earlier Hnodup; [reflexivity |].
  simpl.
  assert (Hx : existsb (same_id x) earlier = false).
  { destruct (existsb (same_id x) earlier) eqn:E; [|reflexivity].
    apply existsb_same_id in E. rewrite map_app in Hnodup.
    apply NoDup_app in Hnodup. destruct Hnodup as (_ & Hdisj & _).
    exfalso. apply (Hdisj _ E). simpl. apply list_elem_of_here. }
  rewrite Hx. f_equal. apply IH. rewrite <- app_assoc. exact Hnodup.
Qed.

(** X9: a snapshot whose transcripts are in ascending order of timestamp
    and have pairwise different ids is installed as it is: the handler
    neither reorders nor drops a record of it. *)
Theorem ordered_snapshot_installed_unchanged
    (st : State) (received : list TranscriptEntry)
    (active_calls : option (gmap string CallSession)) :
  StronglySorted (ascending Date_parse) received ->
  NoDup (map TranscriptEntry.id received) ->
  transcripts (onmessage Date_parse st (initial_data (Some received) active_calls))
  = received.
Proof.
  intros Hsorted Hnodup.
  rewrite initial_data_fields. simpl.
  rewrite uniqueTranscripts_keep_first, Array_sort_ascending by exact Hsorted.
  apply keep_first_ids_after_id. exact Hnodup.
Qed.

End Invariants.

(** ** The invariants on an example *)

(** Discharges [ascending] between two records of known timestamps. *)
Ltac ascending_by_computation :=
  eexists _, _; split; [vm_compute; reflexivity |];
  split; [vm_compute; reflexivity | lia].

(** Discharges [dated] for a list of records of known timestamps. *)
Ltac dated_by_computation :=
  repeat (constructor; [eexists; vm_compute; reflexivity |]); constructor.

Lemma render_sorts_once_witness :
  let st := Example.out_of_order in
  dated Runtime.Date_parse (transcripts st)
  /\ StronglySorted (ascending Runtime.Date_parse)
       (transcripts (render Runtime.Date_parse st))
  /\ render Runtime.Date_parse (render Runtime.Date_parse st)
     = render Runtime.Date_parse st.
Proof.
  cbv zeta.
  assert (Hdated : dated Runtime.Date_parse (transcripts Example.out_of_order))
    by dated_by_computation.
  split; [exact Hdated |].
  pose proof (render_sorts_once Runtime.Date_parse Example.out_of_order Hdated) as H.
  split; apply H.
Defined.

Lemma ids_stay_unique_witness :
  let steps :=
    [handle (transcript (Some (Example.entry 1 (Example.at_second 1))));
     rerender;
     handle (transcript (Some (Example.entry 0 (Example.at_second 5))))] in
  NoDup (map TranscriptEntry.id (transcripts Example.busy))
  /\ NoDup (map TranscriptEntry.id
              (transcripts (run_steps Runtime.Date_parse Example.busy steps))).
Proof.
  cbv zeta.
  assert (H : NoDup (map TranscriptEntry.id (transcripts Example.busy)))
    by apply NoDup_singleton.
  split; [exact H |].
  apply (ids_stay_unique Runtime.Date_parse Example.busy _ H).
Defined.

Lemma capacity_kept_without_snapshot_witness :
  let steps :=
    [handle (transcript (Some (Example.entry 1 (Example.at_second 1))));
     rerender;
     handle transcripts_cleared] in
  Forall (fun s => ~ is_snapshot s) steps
  /\ (length (transcripts Example.busy) <= 50)%nat
  /\ (length (transcripts (run_steps Runtime.Date_parse Example.busy steps)) <= 50)%nat.
Proof.
  cbv zeta.
  assert (Hsteps : Forall (fun s => ~ is_snapshot s)
            [handle (transcript (Some (Example.entry 1 (Example.at_second 1))));
             rerender;
             handle transcripts_cleared])
    by (repeat (constructor; [intros (r & a & H); discriminate |]); constructor).
  assert (Hlen : (length (transcripts Example.busy) <= 50)%nat) by (simpl; lia).
  split; [exact Hsteps |]. split; [exact Hlen |].
  apply (capacity_kept_without_snapshot Runtime.Date_parse Example.busy _ Hsteps Hlen).
Defined.

Lemma duplicates_never_stored_witness :
  let steps :=
    [handle (transcript (Some (Example.entry 1 (Example.at_second 1))));
     rerender;
     handle (transcript (Some (Example.entry 0 (Example.at_second 5))))] in
  Forall (fun s => ~ is_snapshot s) steps
  /\ duplicate_free Runtime.Date_parse (transcripts Example.busy)
  /\ duplicate_free Runtime.Date_parse
       (transcripts (run_steps Runtime.Date_parse Example.busy steps)).
Proof.
  cbv zeta.
  assert (Hsteps : Forall (fun s => ~ is_snapshot s)
            [handle (transcript (Some (Example.entry 1 (Example.at_second 1))));
             rerender;
             handle (transcript (Some (Example.entry 0 (Example.at_second 5))))])
    by (repeat (constructor; [intros (r & a & H); discriminate |]); constructor).
  assert (Hfree : duplicate_free Runtime.Date_parse (transcripts Example.busy))
    by (repeat constructor).
  split; [exact Hsteps |]. split; [exact Hfree |].
  apply (duplicates_never_stored Runtime.Date_parse Example.busy _ Hsteps Hfree).
Defined.

Lemma renders_immaterial_in_order_witness :
  let fragments :=
    [Example.entry 1 (Example.at_second 1); Example.entry 2 (Example.at_second 2)] in
  let steps :=
    [handle (transcript (Some (Example.entry 1 (Example.at_second 1))));
     rerender;
     handle (transcript (Some (Example.entry 2 (Example.at_second 2))));
     rerender] in
  messages_of steps = transcript_messages fragments
  /\ StronglySorted (ascending Runtime.Date_parse)
       (transcripts Example.busy ++ fragments)
  /\ run_steps Runtime.Date_parse Example.busy steps
     = run Runtime.Date_parse Example.busy (transcript_messages fragments).
Proof.
  cbv zeta.
  assert (Hsorted : StronglySorted (ascending Runtime.Date_parse)
            (transcripts Example.busy
             ++ [Example.entry 1 (Example.at_second 1);
                 Example.entry 2 (Example.at_second 2)])).
  { simpl. repeat constructor; ascending_by_computation. }
  split; [reflexivity |]. split; [exact Hsorted |].
  apply (renders_immaterial_in_order Runtime.Date_parse
           [handle (transcript (Some (Example.entry 1 (Example.at_second 1))));
            rerender;
            handle (transcript (Some (Example.entry 2 (Example.at_second 2))));
            rerender]
           Example.busy
           [Example.entry 1 (Example.at_second 1); Example.entry 2 (Example.at_second 2)]
           eq_refl Hsorted).
Defined.

Lemma other_calls_untouched_witness :
  let steps :=
    [handle (call_status (Some (CallStatusData.mk "c2" (Example.session "active"))));
     rerender;
     handle (call_removed (Some (CallRemovedData.mk "c3")));
     handle transcripts_cleared] in
  Forall (fun message => ~ concerns message "c1") (messages_of steps)
  /\ activeCalls (run_steps Runtime.Date_parse Example.busy steps) !! "c1"%string
     = activeCalls Example.busy !! "c1"%string.
Proof.
  cbv zeta.
  assert (H : Forall (fun message => ~ concerns message "c1")
     (messages_of
        [handle (call_status (Some (CallStatusData.mk "c2" (Example.session "active"))));
         rerender;
         handle (call_removed (Some (CallRemovedData.mk "c3")));
         handle transcripts_cleared])).
  { simpl. repeat (constructor; [simpl; first [discriminate | tauto] |]). constructor. }
  split; [exact H |].
  apply (other_calls_untouched Runtime.Date_parse Example.busy _ "c1" H).
Defined.

Lemma ordered_snapshot_installed_unchanged_witness :
  let received :=
    [Example.entry 0 (Example.at_second 0); Example.entry 1 (Example.at_second 1)] in
  StronglySorted (ascending Runtime.Date_parse) received
  /\ NoDup (map TranscriptEntry.id received)
  /\ transcripts (onmessage Runtime.Date_parse Example.busy
                    (initial_data (Some received) None))
     = received.
Proof.
  cbv zeta.
  assert (Hsorted : StronglySorted (ascending Runtime.Date_parse)
            [Example.entry 0 (Example.at_second 0);
             Example.entry 1 (Example.at_second 1)])
    by (repeat constructor; ascending_by_computation).
  assert (Hnodup : NoDup (map TranscriptEntry.id
            [Example.entry 0 (Example.at_second 0);
             Example.entry 1 (Example.at_second 1)])).
  { apply NoDup_cons. split; [|apply NoDup_singleton].
    intros H. apply list_elem_of_singleton in H. discriminate. }
  split; [exact Hsorted |]. split; [exact Hnodup |].
  apply (ordered_snapshot_installed_unchanged Runtime.Date_parse Example.busy _ None
           Hsorted Hnodup).
Defined.

(** * Further properties of the handler on JSON values *)

Section RawInvariants.

Variable Date_parse : string -> number.
Variable Date_of : json -> Raw.result number.
Variable ToString_of : json -> Raw.result string.
Variable CopyDataProperties_of : json -> gmap string json.

Local Arguments Raw.get : simpl never.
Local Arguments Raw.get_optional : simpl never.
Local Arguments Raw.truthy : simpl never.
Local Arguments Raw.as_array : simpl never.
Local Arguments Raw.uniqueTranscripts : simpl never.
Local Arguments Raw.log_call : simpl never.

Local Abbreviation body := (Raw.body Date_parse Date_of ToString_of CopyDataProperties_of).
Local Abbreviation onmessage :=
  (Raw.onmessage Date_parse Date_of ToString_of CopyDataProperties_of).







(** ** The retained records are never [null] *)

Lemma filter_from_inv {A : Type} (f : A -> Z -> Raw.result bool) (k : Z)
    (l r : list A) :
  Raw.filter_from f k l = Raw.Return r ->
  Forall (fun x => exists i b, f x i = Raw.Return b) l /\ (forall x, x ∈ r -> x ∈ l).
Proof.
  revert k r. induction l as [|x l IH]; intros k r; simpl.
  - intros H. inversion H; subst. split; [constructor | auto].
  - destruct (f x k) as [b|] eqn:Hf; simpl; [|discriminate].
    destruct (Raw.filter_from f (k + 1) l) as [rest|] eqn:Hrest; simpl; [|discriminate].
    intros H. inversion H; subst. destruct (IH _ _ Hrest) as [Hall Hsub].
    split; [constructor; [eauto | exact Hall] |].
    intros y Hy. destruct b.
    + apply elem_of_cons in Hy. destruct Hy as [-> | Hy];
        [apply list_elem_of_here | apply list_elem_of_further, Hsub, Hy].
    + apply list_elem_of_further, Hsub, Hy.
Qed.

Lemma get_not_null (x : json) (k : string) (v : value) :
  Raw.get (val x) k = Raw.Return v -> x <> JNull.
Proof. intros H ->. unfold Raw.get in H. discriminate. Qed.

Lemma uniqueTranscripts_no_null (arr unique : list json) :
  Raw.uniqueTranscripts Date_parse Date_of arr = Raw.Return unique ->
  Raw.no_null unique.
Proof.
  unfold Raw.uniqueTranscripts, Raw.Array_filter.
  destruct (Raw.Array_sort (Raw.by_timestamp Date_parse Date_of) arr) as [sorted|];
    simpl; [|discriminate].
  intros H. apply filter_from_inv in H. destruct H as [Hall Hsub].
  apply List.Forall_forall. intros x Hx.
  apply list_elem_of_In, Hsub in Hx.
  rewrite List.Forall_forall in Hall.
  destruct (Hall x (proj1 (list_elem_of_In _ _) Hx)) as (i & b & Hf).
  destruct sorted as [|t0 sorted]; [inversion Hx |].
  unfold Raw.Array_findIndex in Hf. simpl in Hf.
  destruct (Raw.get (val t0) "id") as [t_id|]; simpl in Hf; [|discriminate].
  destruct (Raw.get (val x) "id") as [x_id|] eqn:Hget; simpl in Hf; [|discriminate].
  eapply get_not_null. exact Hget.
Qed.

Lemma truthy_not_null (d : json) : Raw.truthy (val d) = true -> d <> JNull.
Proof. intros H ->. unfold Raw.truthy in H. discriminate. Qed.

Lemma add_transcript_no_null (d : json) (prev next : list json) :
  d <> JNull -> Raw.no_null prev ->
  Raw.add_transcript Date_parse Date_of d prev = Raw.Return next ->
  Raw.no_null next.
Proof.
  intros Hd Hprev. unfold Raw.add_transcript.
  destruct (Raw.Array_some _ prev) as [[]|]; simpl; intros H; inversion H; subst.
  - exact Hprev.
  - rewrite Array_slice_50. apply Forall_drop, Forall_app.
    split; [exact Hprev | constructor; [exact Hd | constructor]].
Qed.

Lemma body_careful (parsed : Raw.result json) :
  Forall Raw.careful (fst (body parsed)).
Proof.
  unfold Raw.body. destruct parsed as [message|e]; simpl; [|constructor].
  destruct (Raw.get (val message) "type") as [type|]; simpl; [|constructor].
  destruct (Raw.is_type type "initial_data").
  { destruct (Raw.get (val message) "transcripts") as [received|]; simpl;
      [|constructor].
    destruct (Raw.get (val message) "active_calls") as [calls|]; simpl.
    - destruct (Raw.truthy received); simpl;
        [destruct (Raw.as_array received) as [arr|]; simpl;
           [destruct (Raw.uniqueTranscripts Date_parse Date_of arr) as [unique|] eqn:E;
            simpl |] |];
        try (destruct calls as [|c]; [|destruct (Raw.truthy (val c))]); simpl;
        repeat first [ apply Forall_nil_2
                     | apply Forall_cons_2;
                       [first [ exact I
                              | intros prev next _ H; inversion H; subst;
                                eapply uniqueTranscripts_no_null; exact E ] |] ].
    - destruct (Raw.truthy received); simpl;
        [destruct (Raw.as_array received) as [arr|]; simpl;
           [destruct (Raw.uniqueTranscripts Date_parse Date_of arr) as [unique|] eqn:E;
            simpl |] |];
        repeat first [ apply Forall_nil_2
                     | apply Forall_cons_2;
                       [first [ exact I
                              | intros prev next _ H; inversion H; subst;
                                eapply uniqueTranscripts_no_null; exact E ] |] ]. }
  destruct (Raw.is_type type "transcript").
  { destruct (Raw.get (val message) "data") as [[|d]|]; simpl; try constructor.
    destruct (Raw.truthy (val d)) eqn:Ht; simpl; constructor; [|constructor].
    intros prev next Hprev H. eapply add_transcript_no_null; [|exact Hprev | exact H].
    apply truthy_not_null. exact Ht. }
  destruct (Raw.is_type type "call_status").
  { destruct (Raw.get (val message) "data") as [data|]; simpl; [|constructor].
    destruct (Raw.truthy data); simpl; [|constructor].
    destruct (Raw.get data "session") as [session|]; simpl; [|constructor].
    destruct (Raw.get session "status") as [status|]; simpl; [|constructor].
    destruct (Raw.String_toLowerCase status) as [callStatus|]; simpl; [|constructor].
    destruct session as [|s]; simpl; [constructor |].
    destruct (String.eqb callStatus "ended" || String.eqb callStatus "failed"); simpl.
    - destruct (Raw.log_call ToString_of data) as [[]|]; simpl;
        repeat first [ apply Forall_nil_2
                     | apply Forall_cons_2;
                       [first [ exact I
                              | intros prev next _ H; inversion H; constructor ] |] ].
    - constructor; [exact I | constructor]. }
  destruct (Raw.is_type type "call_removed").
  { destruct (Raw.get (val message) "data") as [data|]; simpl; [|constructor].
    destruct (Raw.get_optional data "call_id") as [call_id|]; simpl; [|constructor].
    destruct (Raw.truthy call_id); simpl; [|constructor].
    destruct (Raw.log_call ToString_of data) as [[]|]; simpl;
      repeat first [ apply Forall_nil_2
                   | apply Forall_cons_2;
                     [first [ exact I
                            | intros prev next _ H; inversion H; constructor ] |] ]. }
  destruct (Raw.is_type type "transcripts_cleared"); simpl;
    repeat first [ apply Forall_nil_2
                 | apply Forall_cons_2;
                   [intros prev next _ H; inversion H; constructor |] ].
Qed.

Lemma apply_updates_careful (queue : list Raw.Update) (st st' : Raw.State) :
  Forall Raw.careful queue ->
  Raw.no_null (Raw.transcripts st) ->
  Raw.apply_updates st queue = Raw.Return st' ->
  Raw.no_null (Raw.transcripts st').
Proof.
  unfold Raw.apply_updates. revert st.
  induction queue as [|u queue IH]; intros st Hq Hst; simpl.
  - intros H. inversion H; subst. exact Hst.
  - inversion Hq as [|? ? Hu Hrest]; subst.
    destruct u as [f|f]; simpl.
    + destruct (f (Raw.transcripts st)) as [next|] eqn:Hf; simpl.
      * apply IH; [exact Hrest |]. simpl. eapply Hu; eassumption.
      * clear. induction queue as [|u queue IHq]; simpl; [discriminate | exact IHq].
    + destruct (f (Raw.activeCalls st)) as [next|] eqn:Hf; simpl.
      * apply IH; [exact Hrest | exact Hst].
      * clear. induction queue as [|u queue IHq]; simpl; [discriminate | exact IHq].
Qed.

(** X12: whatever frames arrive, [null] never gets into the retained
    transcripts: a [transcript] frame is appended only when its [data] is
    truthy, and a snapshot is installed only when reading the [id] of each
    of its elements did not throw. So reading a property of a retained
    record, in the duplicate test and in the panel, never throws. *)
Theorem null_never_retained
    (st st' : Raw.State) (parsed : Raw.result json) :
  Raw.no_null (Raw.transcripts st) ->
  onmessage st parsed = Raw.Return st' ->
  Raw.no_null (Raw.transcripts st')
  /\ forall t k, t ∈ Raw.transcripts st' ->
       exists v, Raw.get (val t) k = Raw.Return v.
Proof.
  intros Hst Hrun. unfold Raw.onmessage in Hrun.
  assert (Hq : Forall Raw.careful (fst (body parsed))) by apply body_careful.
  assert (Hst' : Raw.no_null (Raw.transcripts st')).
  { destruct (body parsed) as [q [[]|e]]; simpl in *;
      eapply apply_updates_careful; eassumption. }
  split; [exact Hst' |].
  intros t k Ht. unfold Raw.no_null in Hst'. rewrite List.Forall_forall in Hst'.
  specialize (Hst' t (proj1 (list_elem_of_In _ _) Ht)).
  unfold Raw.get. destruct t; try congruence; eexists; reflexivity.
Qed.

End RawInvariants.


Lemma null_never_retained_witness :
  let st := ToJSON.state Example.busy in
  let frame := Raw.Return (ToJSON.message
                 (transcript (Some (Example.entry 1 (Example.at_second 1))))) in
  let st' := ToJSON.state
               (onmessage Runtime.Date_parse Example.busy
                  (transcript (Some (Example.entry 1 (Example.at_second 1))))) in
  Raw.no_null (Raw.transcripts st)
  /\ Raw.onmessage Runtime.Date_parse Runtime.Date_of Runtime.ToString_of
       Runtime.CopyDataProperties_of st frame
     = Raw.Return st'
  /\ Raw.no_null (Raw.transcripts st').
Proof.
  cbv zeta.
  assert (Hst : Raw.no_null (Raw.transcripts (ToJSON.state Example.busy)))
    by (repeat constructor; discriminate).
  assert (Hrun :
    Raw.onmessage Runtime.Date_parse Runtime.Date_of Runtime.ToString_of
      Runtime.CopyDataProperties_of (ToJSON.state Example.busy)
      (Raw.Return (ToJSON.message
         (transcript (Some (Example.entry 1 (Example.at_second 1))))))
    = Raw.Return (ToJSON.state
        (onmessage Runtime.Date_parse Example.busy
           (transcript (Some (Example.entry 1 (Example.at_second 1)))))))
    by (vm_compute; reflexivity).
  split; [exact Hst |]. split; [exact Hrun |].
  apply (null_never_retained Runtime.Date_parse Runtime.Date_of
           Runtime.ToString_of Runtime.CopyDataProperties_of _ _ _ Hst Hrun).
Defined.

(** * What the dashboard shows *)

(** ** The duration of a call *)

Lemma pretty_N_go_length (x : N) (s : string) :
  (String.length s <= String.length (pretty_N_go x s))%nat.
Proof.
  revert s. induction (N.lt_wf_0 x) as [x _ IH]; intros s.
  destruct (N.eq_dec x 0%N) as [->|Hx]; [rewrite pretty_N_go_0; lia |].
  rewrite pretty_N_go_step by lia.
  etrans; [|apply IH; apply N.div_lt; lia]. simpl. lia.
Qed.

Lemma two_digits_below_100 (z : Z) :
  0 <= z < 100 -> two_digits (Some z) = two_decimal_digits z.
Proof.
  intros Hz.
  assert (H : forallb (fun z => String.eqb (two_digits (Some z)) (two_decimal_digits z))
                (seqZ 0 100) = true) by (vm_compute; reflexivity).
  rewrite forallb_forall in H. apply String.eqb_eq, H.
  apply list_elem_of_In, elem_of_seqZ. lia.
Qed.

Lemma pretty_Z_length_3 (z : Z) :
  100 <= z -> (3 <= String.length (pretty z))%nat.
Proof.
  intros Hz. destruct z as [|p|p]; try lia.
  change (pretty (Z.pos p)) with (pretty (N.pos p)). unfold pretty, pretty_N.
  destruct (decide (N.pos p = 0%N)); [lia |].
  assert (H1 : (10 <= N.pos p / 10)%N) by (apply N.div_le_lower_bound; lia).
  assert (H2 : (0 < N.pos p / 10 / 10)%N) by (apply N.div_str_pos; lia).
  rewrite pretty_N_go_step by lia.
  rewrite pretty_N_go_step by lia.
  rewrite pretty_N_go_step by exact H2.
  etrans; [|apply pretty_N_go_length]. simpl. lia.
Qed.

Lemma pretty_Z_negative (z : Z) :
  z < 0 -> exists rest, pretty z = String "-" rest /\ (1 <= String.length rest)%nat.
Proof.
  intros Hz. destruct z as [|p|p]; try lia.
  exists (pretty p). split; [reflexivity |].
  change (pretty p) with (pretty (N.pos p)). unfold pretty, pretty_N.
  destruct (decide (N.pos p = 0%N)); [lia |].
  rewrite pretty_N_go_step by lia.
  etrans; [|apply pretty_N_go_length]. simpl. lia.
Qed.

Lemma String_length_append (s1 s2 : string) :
  String.length (s1 +:+ s2) = (String.length s1 + String.length s2)%nat.
Proof. induction s1 as [|c s1 IH]; simpl; [reflexivity | rewrite IH; reflexivity]. Qed.

Lemma String_padStart_long (n : nat) (padString s : string) :
  (n <= String.length s)%nat -> String_padStart n padString s = s.
Proof.
  intros H. unfold String_padStart.
  destruct (Nat.leb_spec n (String.length s)); [reflexivity | lia].
Qed.

Section DurationProperties.

Variable Date_parse : string -> number.

Lemma duration_parts_valid (now start : Z) (startTime : string) :
  Date_parse startTime = Some start ->
  duration_parts Date_parse now startTime
  = (Some ((now - start) / 1000 / 3600),
     Some (Z.rem ((now - start) / 1000) 3600 / 60),
     Some (Z.rem ((now - start) / 1000) 60)).
Proof. intros H. unfold duration_parts, getTime. rewrite H. reflexivity. Qed.

(** X13: for a call that started at or before the present, the three
    numbers of the duration are whole, the minutes and the seconds are
    between 0 and 59, and hours, minutes and seconds add up to the whole
    seconds elapsed since the start. *)
Theorem duration_fields_recompose (now start : Z) (startTime : string) :
  Date_parse startTime = Some start ->
  start <= now ->
  exists hours minutes seconds : Z,
    duration_parts Date_parse now startTime = (Some hours, Some minutes, Some seconds)
    /\ 0 <= hours /\ 0 <= minutes < 60 /\ 0 <= seconds < 60
    /\ hours * 3600 + minutes * 60 + seconds = (now - start) / 1000.
Proof.
  intros Hstart Hle. rewrite (duration_parts_valid _ _ _ Hstart).
  assert (He : 0 <= (now - start) / 1000) by (apply Z.div_pos; lia).
  rewrite !Z.rem_mod_nonneg by lia.
  eexists _, _, _. split; [reflexivity |].
  generalize dependent ((now - start) / 1000). intros e He.
  Z.to_euclidean_division_equations; lia.
Qed.

(** X14: for a call that started at or before the present and less than
    100 hours ago, the duration reads [HH:MM:SS], each field written with
    two decimal digits; the text is 8 characters long exactly when the call
    started less than 100 hours ago (the hours take three digits or more
    from then on). *)
Theorem duration_two_digit_fields (now start : Z) (startTime : string) :
  Date_parse startTime = Some start ->
  start <= now ->
  ((now - start) / 1000 < 360000 ->
   calculateDuration Date_parse now startTime
   = two_decimal_digits ((now - start) / 1000 / 3600) +:+ ":"
     +:+ two_decimal_digits ((now - start) / 1000 mod 3600 / 60) +:+ ":"
     +:+ two_decimal_digits ((now - start) / 1000 mod 60))
  /\ (String.length (calculateDuration Date_parse now startTime) = 8%nat
      <-> (now - start) / 1000 < 360000).
Proof.
  intros Hstart Hle. unfold calculateDuration.
  rewrite (duration_parts_valid _ _ _ Hstart).
  assert (He : 0 <= (now - start) / 1000) by (apply Z.div_pos; lia).
  rewrite !Z.rem_mod_nonneg by lia.
  generalize dependent ((now - start) / 1000). intros e He.
  rewrite (two_digits_below_100 (e mod 3600 / 60))
    by (Z.to_euclidean_division_equations; lia).
  rewrite (two_digits_below_100 (e mod 60))
    by (Z.to_euclidean_division_equations; lia).
  destruct (Z.lt_ge_cases e 360000) as [Hlt | Hge].
  - rewrite (two_digits_below_100 (e / 3600))
      by (Z.to_euclidean_division_equations; lia).
    split; [reflexivity |]. split; [intros _; exact Hlt | reflexivity].
  - split; [lia |]. split; [|lia]. intros Hlen. exfalso.
    unfold two_digits at 1 in Hlen. unfold Number_toString in Hlen.
    assert (H3 : (3 <= String.length (pretty (e / 3600)%Z))%nat)
      by (apply pretty_Z_length_3; Z.to_euclidean_division_equations; lia).
    rewrite String_padStart_long in Hlen by lia.
    rewrite String_length_append in Hlen. simpl in Hlen. lia.
Qed.

(** X15: for a start time that the runtime cannot read as a date, the
    duration reads [NaN:NaN:NaN]. *)
Theorem duration_of_invalid_start (now : Z) (startTime : string) :
  Date_parse startTime = None ->
  calculateDuration Date_parse now startTime = "NaN:NaN:NaN"%string.
Proof.
  intros H. unfold calculateDuration, duration_parts, getTime. rewrite H. reflexivity.
Qed.

(** X16: for a start time later than the present (the clock of the
    server ahead of the clock of the browser), the duration is not held at
    zero: it starts with a minus sign. *)
Theorem duration_of_future_start (now start : Z) (startTime : string) :
  Date_parse startTime = Some start ->
  now < start ->
  exists rest : string,
    calculateDuration Date_parse now startTime = String "-" rest.
Proof.
  intros Hstart Hlt. unfold calculateDuration.
  rewrite (duration_parts_valid _ _ _ Hstart).
  assert (He : (now - start) / 1000 / 3600 < 0)
    by (Z.to_euclidean_division_equations; lia).
  destruct (pretty_Z_negative _ He) as (rest & Hrest & Hlen).
  unfold two_digits at 1. unfold Number_toString.
  rewrite String_padStart_long by (rewrite Hrest; simpl; lia).
  rewrite Hrest. eexists. reflexivity.
Qed.


End DurationProperties.

Lemma Date_parse_at_second_0 :
  Runtime.Date_parse (Example.at_second 0) = Some 1735689600000.
Proof. vm_compute. reflexivity. Qed.

(** One hour, two minutes and five seconds and a half after the start. *)
Lemma duration_fields_recompose_witness :
  let start := 1735689600000 in
  let now := start + 3725500 in
  (Runtime.Date_parse (Example.at_second 0) = Some start /\ start <= now)
  /\ exists hours minutes seconds : Z,
       duration_parts Runtime.Date_parse now (Example.at_second 0)
       = (Some hours, Some minutes, Some seconds)
       /\ 0 <= hours /\ 0 <= minutes < 60 /\ 0 <= seconds < 60
       /\ hours * 3600 + minutes * 60 + seconds = (now - start) / 1000.
Proof.
  cbv zeta.
  assert (Hle : 1735689600000 <= 1735689600000 + 3725500) by lia.
  split; [split; [exact Date_parse_at_second_0 | exact Hle] |].
  apply (duration_fields_recompose Runtime.Date_parse
           (1735689600000 + 3725500) 1735689600000 (Example.at_second 0)
           Date_parse_at_second_0 Hle).
Defined.

Lemma duration_two_digit_fields_witness :
  let start := 1735689600000 in
  let now := start + 3725500 in
  (Runtime.Date_parse (Example.at_second 0) = Some start /\ start <= now)
  /\ String.length (calculateDuration Runtime.Date_parse now (Example.at_second 0))
     = 8%nat.
Proof.
  cbv zeta.
  assert (Hle : 1735689600000 <= 1735689600000 + 3725500) by lia.
  split; [split; [exact Date_parse_at_second_0 | exact Hle] |].
  apply (duration_two_digit_fields Runtime.Date_parse
           (1735689600000 + 3725500) 1735689600000 (Example.at_second 0)
           Date_parse_at_second_0 Hle).
  vm_compute. reflexivity.
Defined.

Lemma duration_of_invalid_start_witness :
  Runtime.Date_parse "yesterday" = None
  /\ calculateDuration Runtime.Date_parse 1735689600000 "yesterday"
     = "NaN:NaN:NaN"%string.
Proof.
  split; [reflexivity |].
  apply (duration_of_invalid_start Runtime.Date_parse 1735689600000 "yesterday" eq_refl).
Defined.

Lemma duration_of_future_start_witness :
  let start := 1735689600000 in
  let now := start - 1 in
  (Runtime.Date_parse (Example.at_second 0) = Some start /\ now < start)
  /\ exists rest : string,
       calculateDuration Runtime.Date_parse now (Example.at_second 0)
       = String "-" rest.
Proof.
  cbv zeta.
  assert (Hlt : 1735689600000 - 1 < 1735689600000) by lia.
  split; [split; [exact Date_parse_at_second_0 | exact Hlt] |].
  apply (duration_of_future_start Runtime.Date_parse
           (1735689600000 - 1) 1735689600000 (Example.at_second 0)
           Date_parse_at_second_0 Hlt).
Defined.

Example duration_of_an_hour_and_more :
  calculateDuration Runtime.Date_parse (1735689600000 + 3725500) (Example.at_second 0)
  = "01:02:05"%string
  /\ calculateDuration Runtime.Date_parse (1735689600000 + 360000000) (Example.at_second 0)
     = "100:00:00"%string
  /\ calculateDuration Runtime.Date_parse (1735689600000 - 1) (Example.at_second 0)
     = "-1:-1:-1"%string
  /\ calculateDuration Runtime.Date_parse (1735689600000 - 3600000) (Example.at_second 0)
     = "-1:00:00"%string.
Proof. repeat split; vm_compute; reflexivity. Qed.

(** ** The status of the current call *)

Lemma lower_upper_ascii (c : ascii) : lower_ascii (upper_ascii c) = lower_ascii c.
Proof. destruct c as [[] [] [] [] [] [] [] []]; reflexivity. Qed.

Lemma upper_lower_ascii (c : ascii) : upper_ascii (lower_ascii c) = upper_ascii c.
Proof. destruct c as [[] [] [] [] [] [] [] []]; reflexivity. Qed.

Lemma toLowerCase_upper (s : string) :
  toLowerCase (toUpperCase_ascii s) = toLowerCase s.
Proof.
  induction s as [|c s IH]; simpl; [reflexivity |].
  rewrite lower_upper_ascii, IH. reflexivity.
Qed.

Lemma toUpperCase_lower (s : string) :
  toUpperCase_ascii (toLowerCase s) = toUpperCase_ascii s.
Proof.
  induction s as [|c s IH]; simpl; [reflexivity |].
  rewrite upper_lower_ascii, IH. reflexivity.
Qed.

Lemma upper_STANDBY (s : string) :
  toUpperCase_ascii s = "STANDBY"%string <-> toLowerCase s = "standby"%string.
Proof.
  split; intros H.
  - rewrite <- toLowerCase_upper, H. reflexivity.
  - rewrite <- toUpperCase_lower, H. reflexivity.
Qed.

Lemma getStatusColor_blue (s : string) :
  getStatusColor s = "bg-blue-500"%string <-> toLowerCase s = "standby"%string.
Proof.
  unfold getStatusColor.
  destruct (String.eqb_spec (toLowerCase s) "active") as [-> | _];
    [split; discriminate |].
  destruct (String.eqb_spec (toLowerCase s) "pending") as [-> | _];
    [split; discriminate |].
  destruct (String.eqb_spec (toLowerCase s) "resolved") as [-> | _];
    [split; discriminate |].
  destruct (String.eqb_spec (toLowerCase s) "ended") as [-> | _];
    [split; discriminate |].
  simpl.
  destruct (String.eqb_spec (toLowerCase s) "standby") as [-> | Hne];
    [split; reflexivity |].
  split; [discriminate | intros H; contradiction].
Qed.

(** ** The current call *)

Section CurrentCallProperties.

Variable Date_parse : string -> number.
Variable toUpperCase : string -> string.
Variable toLocaleTimeString : number -> string.

(** X17: the colour of the status badge of an active call is the colour
    of the status as the session has it: [getCurrentCall] upper-cases the
    status and [getStatusColor] lower-cases it again. The header reads
    [Monitoring] for such a call exactly when the badge is blue, that is
    when the status is [standby] in some casing. Statuses are ASCII, on
    which [toUpperCase] upper-cases the letters a to z. *)
Theorem status_colour_of_current_call (now : Z) (call : CallSession) :
  (forall s : string, ascii_only s -> toUpperCase s = toUpperCase_ascii s) ->
  ascii_only (CallSession.status call) ->
  getStatusColor (CallData.status (call_data Date_parse toUpperCase toLocaleTimeString now call))
  = getStatusColor (CallSession.status call)
  /\ (header_text (call_data Date_parse toUpperCase toLocaleTimeString now call)
      = "Monitoring"%string
      <-> getStatusColor (CallSession.status call) = "bg-blue-500"%string).
Proof.
  intros Hupper Hascii. unfold header_text. simpl.
  rewrite (Hupper _ Hascii). split.
  - unfold getStatusColor. rewrite toLowerCase_upper. reflexivity.
  - rewrite getStatusColor_blue, <- upper_STANDBY.
    destruct (String.eqb_spec (toUpperCase_ascii (CallSession.status call)) "STANDBY")
      as [-> | Hne]; [split; reflexivity |].
    split; [discriminate | intros H; contradiction].
Qed.

(** X18: [getCurrentCall] never throws: with no active call it returns the
    standby data, and with active calls the data built from the session
    filed under the first key that [Object.keys] lists. *)
Theorem current_call_of_keys (activeCallIds : list string)
    (activeCalls : gmap string CallSession) (defaultStartTime : string) (now : Z) :
  keys_of activeCallIds activeCalls ->
  (activeCalls = ∅ ->
   getCurrentCall Date_parse toUpperCase toLocaleTimeString
     activeCallIds activeCalls defaultStartTime now
   = Raw.Return (defaultCallData defaultStartTime))
  /\ (activeCalls <> ∅ ->
      exists (k : string) (call : CallSession),
        head activeCallIds = Some k /\ activeCalls !! k = Some call
        /\ getCurrentCall Date_parse toUpperCase toLocaleTimeString
             activeCallIds activeCalls defaultStartTime now
           = Raw.Return (call_data Date_parse toUpperCase toLocaleTimeString now call)).
Proof.
  intros Hkeys. unfold getCurrentCall.
  destruct activeCallIds as [|first rest].
  - split; [reflexivity |]. intros Hne. exfalso. apply Hne.
    apply map_empty. intros k. apply eq_None_not_Some. intros Hk.
    apply Hkeys in Hk. inversion Hk.
  - assert (Hfirst : is_Some (activeCalls !! first))
      by (apply Hkeys, list_elem_of_here).
    destruct Hfirst as [call Hcall]. rewrite Hcall. split.
    + intros ->. rewrite lookup_empty in Hcall. discriminate.
    + intros _. exists first, call. split; [reflexivity |]. split; [exact Hcall | reflexivity].
Qed.

Lemma call_over_not_standby (session : CallSession) :
  call_over session = true ->
  toLowerCase (CallSession.status session) <> "standby"%string.
Proof.
  unfold call_over. intros H Hs. rewrite Hs in H. discriminate.
Qed.

(** X19: after a [call_status] message that ends the only call, the
    transcript panel is empty and the call stays the current call of the
    dashboard, under the header [Live Call Active]: the session is then
    still among the active calls. *)
Theorem ended_call_stays_on_screen
    (st : State) (data : CallStatusData.t) (activeCallIds : list string)
    (defaultStartTime : string) (now : Z) :
  (forall s : string, ascii_only s -> toUpperCase s = toUpperCase_ascii s) ->
  ascii_only (CallSession.status (CallStatusData.session data)) ->
  call_over (CallStatusData.session data) = true ->
  (forall k : string, k <> CallStatusData.call_id data -> activeCalls st !! k = None) ->
  keys_of activeCallIds
          (activeCalls (onmessage Date_parse st (call_status (Some data)))) ->
  transcripts (onmessage Date_parse st (call_status (Some data))) = []
  /\ getCurrentCall Date_parse toUpperCase toLocaleTimeString activeCallIds
       (activeCalls (onmessage Date_parse st (call_status (Some data))))
       defaultStartTime now
     = Raw.Return (call_data Date_parse toUpperCase toLocaleTimeString now
                             (CallStatusData.session data))
  /\ header_text (call_data Date_parse toUpperCase toLocaleTimeString now
                            (CallStatusData.session data))
     = "Live Call Active"%string.
Proof.
  intros Hupper Hascii Hover Honly Hkeys. simpl in *. rewrite Hover in *. simpl in *.
  split; [reflexivity |]. split.
  - unfold getCurrentCall. destruct activeCallIds as [|first rest].
    + exfalso.
      assert (H : CallStatusData.call_id data ∈ @nil string).
      { apply Hkeys. rewrite lookup_insert_eq. eexists. reflexivity. }
      inversion H.
    + assert (Hfirst : first = CallStatusData.call_id data).
      { destruct (decide (first = CallStatusData.call_id data)) as [|Hne]; [assumption |].
        assert (H : is_Some (<[CallStatusData.call_id data := CallStatusData.session data]>
                               (activeCalls st) !! first))
          by (apply Hkeys, list_elem_of_here).
        rewrite lookup_insert_ne in H by congruence.
        rewrite (Honly _ Hne) in H. inversion H. discriminate. }
      rewrite Hfirst, lookup_insert_eq. reflexivity.
  - unfold header_text. simpl. rewrite (Hupper _ Hascii).
    destruct (String.eqb_spec
                (toUpperCase_ascii (CallSession.status (CallStatusData.session data)))
                "STANDBY") as [Heq | _]; [|reflexivity].
    exfalso. apply upper_STANDBY in Heq.
    exact (call_over_not_standby _ Hover Heq).
Qed.

(** X20: after a [call_removed] message for the only call (of a call id
    that is not empty), the dashboard shows the standby data under the
    header [Monitoring]. *)
Theorem removal_of_only_call_returns_to_standby
    (st : State) (data : CallRemovedData.t) (activeCallIds : list string)
    (defaultStartTime : string) (now : Z) :
  truthy_string (CallRemovedData.call_id data) = true ->
  (forall k : string, k <> CallRemovedData.call_id data -> activeCalls st !! k = None) ->
  keys_of activeCallIds
          (activeCalls (onmessage Date_parse st (call_removed (Some data)))) ->
  getCurrentCall Date_parse toUpperCase toLocaleTimeString activeCallIds
    (activeCalls (onmessage Date_parse st (call_removed (Some data))))
    defaultStartTime now
  = Raw.Return (defaultCallData defaultStartTime)
  /\ header_text (defaultCallData defaultStartTime) = "Monitoring"%string.
Proof.
  intros Htruthy Honly Hkeys. simpl in *. rewrite Htruthy in *. simpl in *.
  split; [|reflexivity].
  unfold getCurrentCall. destruct activeCallIds as [|first rest]; [reflexivity |].
  exfalso.
  assert (H : is_Some (delete (CallRemovedData.call_id data) (activeCalls st) !! first))
    by (apply Hkeys, list_elem_of_here).
  destruct (decide (first = CallRemovedData.call_id data)) as [-> | Hne].
  - rewrite lookup_delete_eq in H. inversion H. discriminate.
  - rewrite lookup_delete_ne in H by congruence.
    rewrite (Honly _ Hne) in H. inversion H. discriminate.
Qed.


End CurrentCallProperties.

Lemma ascii_only_Active : ascii_only "Active".
Proof. simpl. repeat split; vm_compute; lia. Qed.

Lemma status_colour_of_current_call_witness :
  let toLocaleTimeString := Number_toString in
  let call := Example.session "Active" in
  ((forall s : string, ascii_only s -> toUpperCase_ascii s = toUpperCase_ascii s)
   /\ ascii_only (CallSession.status call))
  /\ getStatusColor
       (CallData.status
          (call_data Runtime.Date_parse toUpperCase_ascii toLocaleTimeString 0 call))
     = getStatusColor (CallSession.status call).
Proof.
  cbv zeta. split; [split; [reflexivity | exact ascii_only_Active] |].
  apply (status_colour_of_current_call Runtime.Date_parse toUpperCase_ascii
           Number_toString 0 (Example.session "Active")
           (fun s _ => eq_refl) ascii_only_Active).
Defined.

Lemma keys_of_singleton (k : string) (call : CallSession) :
  keys_of [k] {[k := call]}.
Proof.
  intros k'. rewrite list_elem_of_singleton. split.
  - intros ->. rewrite lookup_singleton_eq. eexists. reflexivity.
  - intros [c Hc]. apply lookup_singleton_Some in Hc. symmetry. apply Hc.
Qed.

Lemma current_call_of_keys_witness :
  let calls : gmap string CallSession := {["c1"%string := Example.session "active"]} in
  keys_of ["c1"%string] calls
  /\ (calls <> ∅ ->
      exists (k : string) (call : CallSession),
        head ["c1"%string] = Some k /\ calls !! k = Some call
        /\ getCurrentCall Runtime.Date_parse toUpperCase_ascii Number_toString
             ["c1"%string] calls "--:--:--" 0
           = Raw.Return (call_data Runtime.Date_parse toUpperCase_ascii
                                   Number_toString 0 call)).
Proof.
  cbv zeta. split; [apply keys_of_singleton |].
  apply (current_call_of_keys Runtime.Date_parse toUpperCase_ascii Number_toString
           ["c1"%string] {["c1"%string := Example.session "active"]} "--:--:--" 0
           (keys_of_singleton _ _)).
Defined.

Lemma only_c1_in_busy (k : string) :
  k <> "c1"%string -> activeCalls Example.busy !! k = None.
Proof. intros Hne. apply lookup_singleton_ne. congruence. Qed.

Lemma ascii_only_ENDED : ascii_only "ENDED".
Proof. simpl. repeat split; vm_compute; lia. Qed.

Lemma keys_after_ended :
  keys_of ["c1"%string]
    (activeCalls (onmessage Runtime.Date_parse Example.busy
       (call_status (Some (CallStatusData.mk "c1" (Example.session "ENDED")))))).
Proof.
  change (keys_of ["c1"%string]
            (<["c1"%string := Example.session "ENDED"]>
               {["c1"%string := Example.session "active"]})).
  rewrite insert_singleton_eq. apply keys_of_singleton.
Qed.

Lemma ended_call_stays_on_screen_witness :
  let data := CallStatusData.mk "c1" (Example.session "ENDED") in
  let st' := onmessage Runtime.Date_parse Example.busy (call_status (Some data)) in
  ((forall s : string, ascii_only s -> toUpperCase_ascii s = toUpperCase_ascii s)
   /\ ascii_only (CallSession.status (CallStatusData.session data))
   /\ call_over (CallStatusData.session data) = true
   /\ (forall k : string,
         k <> CallStatusData.call_id data -> activeCalls Example.busy !! k = None)
   /\ keys_of ["c1"%string] (activeCalls st'))
  /\ transcripts st' = []
  /\ getCurrentCall Runtime.Date_parse toUpperCase_ascii Number_toString
       ["c1"%string] (activeCalls st') "--:--:--" 1735689605000
     = Raw.Return (call_data Runtime.Date_parse toUpperCase_ascii Number_toString
                             1735689605000 (CallStatusData.session data))
  /\ header_text (call_data Runtime.Date_parse toUpperCase_ascii Number_toString
                            1735689605000 (CallStatusData.session data))
     = "Live Call Active"%string.
Proof.
  cbv zeta.
  split;
    [split; [reflexivity |];
     split; [exact ascii_only_ENDED |];
     split; [reflexivity |];
     split; [exact only_c1_in_busy | exact keys_after_ended] |].
  apply (ended_call_stays_on_screen Runtime.Date_parse toUpperCase_ascii
           Number_toString Example.busy
           (CallStatusData.mk "c1" (Example.session "ENDED")) ["c1"%string]
           "--:--:--" 1735689605000
           (fun s _ => eq_refl) ascii_only_ENDED eq_refl only_c1_in_busy
           keys_after_ended).
Defined.

Lemma keys_after_removal :
  keys_of []
    (activeCalls (onmessage Runtime.Date_parse Example.busy
       (call_removed (Some (CallRemovedData.mk "c1"))))).
Proof.
  change (keys_of [] (delete "c1"%string
                        ({["c1"%string := Example.session "active"]}
                           : gmap string CallSession))).
  rewrite delete_singleton_eq. intros k. rewrite lookup_empty. split.
  - intros H. inversion H.
  - intros H. inversion H. discriminate.
Qed.

Lemma removal_of_only_call_returns_to_standby_witness :
  let data := CallRemovedData.mk "c1" in
  let st' := onmessage Runtime.Date_parse Example.busy (call_removed (Some data)) in
  (truthy_string (CallRemovedData.call_id data) = true
   /\ (forall k : string,
         k <> CallRemovedData.call_id data -> activeCalls Example.busy !! k = None)
   /\ keys_of [] (activeCalls st'))
  /\ getCurrentCall Runtime.Date_parse toUpperCase_ascii Number_toString
       [] (activeCalls st') "--:--:--" 1735689605000
     = Raw.Return (defaultCallData "--:--:--")
  /\ header_text (defaultCallData "--:--:--") = "Monitoring"%string.
Proof.
  cbv zeta.
  split; [split; [reflexivity |]; split; [exact only_c1_in_busy | exact keys_after_removal] |].
  apply (removal_of_only_call_returns_to_standby Runtime.Date_parse toUpperCase_ascii
           Number_toString Example.busy (CallRemovedData.mk "c1") []
           "--:--:--" 1735689605000 eq_refl only_c1_in_busy keys_after_removal).
Defined.

(** ** The transcript panel *)

Section PanelProperties.

Variable Date_parse : string -> number.

Lemma Array_slice_15 {A : Type} (l : list A) :
  Array_slice (-15) l = drop (length l - 15) l.
Proof. unfold Array_slice. f_equal. simpl. lia. Qed.

(** X21: the transcript panel shows 15 of the retained records, or all
    of them when they are fewer, and nothing else: each line is a retained
    record, shown as many times as it is retained at most. *)
Theorem panel_shows_at_most_15 (retained : list TranscriptEntry) :
  length (panel_entries Date_parse retained) = Nat.min (length retained) 15
  /\ panel_entries Date_parse retained ⊆+ retained.
Proof.
  unfold panel_entries. rewrite Array_slice_15. split.
  - rewrite length_drop, Array_sort_length. lia.
  - rewrite <- (Array_sort_perm (by_timestamp Date_parse) retained) at 3.
    apply sublist_submseteq, sublist_drop.
Qed.

(** X22: when every timestamp is a date, the lines of the transcript
    panel are in ascending order of timestamp and they are the latest
    records: no record left out is later than a record shown. *)
Theorem panel_shows_latest (retained : list TranscriptEntry) :
  dated Date_parse retained ->
  StronglySorted (ascending Date_parse) (panel_entries Date_parse retained)
  /\ exists hidden : list TranscriptEntry,
       hidden ++ panel_entries Date_parse retained ≡ₚ retained
       /\ forall h d : TranscriptEntry,
            h ∈ hidden -> d ∈ panel_entries Date_parse retained ->
            ascending Date_parse h d.
Proof.
  intros Hdated. unfold panel_entries. rewrite Array_slice_15.
  set (sorted := Array_sort (by_timestamp Date_parse) retained).
  assert (Hsorted : StronglySorted (ascending Date_parse) sorted).
  { apply sorted_by_time_ascending.
    - apply Array_sort_Forall. exact Hdated.
    - eapply Array_sort_sorted; [apply by_timestamp_key | exact Hdated]. }
  split; [apply StronglySorted_drop; exact Hsorted |].
  exists (take (length sorted - 15) sorted). split.
  - rewrite take_drop. apply Array_sort_perm.
  - rewrite <- (take_drop (length sorted - 15) sorted) in Hsorted.
    apply StronglySorted_app_inv in Hsorted. apply Hsorted.
Qed.

Lemma sort_insert_snoc (x d : TranscriptEntry) (l : list TranscriptEntry) :
  ascending Date_parse x d ->
  sort_insert (by_timestamp Date_parse) x (l ++ [d])
  = sort_insert (by_timestamp Date_parse) x l ++ [d].
Proof.
  intros (a & b & Ha & Hb & Hab).
  induction l as [|y l IH]; simpl.
  - unfold SortCompare, by_timestamp. rewrite Ha, Hb. simpl.
    destruct (Z.ltb_spec 0 (a - b)); [lia | reflexivity].
  - destruct (0 <? SortCompare (by_timestamp Date_parse) x y); [|reflexivity].
    rewrite IH. reflexivity.
Qed.

Lemma Array_sort_snoc (d : TranscriptEntry) (l : list TranscriptEntry) :
  Forall (fun t => ascending Date_parse t d) l ->
  Array_sort (by_timestamp Date_parse) (l ++ [d])
  = Array_sort (by_timestamp Date_parse) l ++ [d].
Proof.
  intros Hl. induction Hl as [|x l Hx Hl IH]; [reflexivity |].
  unfold Array_sort in *. simpl. rewrite IH. apply sort_insert_snoc. exact Hx.
Qed.

(** X23: a fragment that is appended and is not earlier than any retained
    record is the last line of the transcript panel. *)
Theorem new_fragment_shown_last (st : State) (data : TranscriptEntry) :
  exists_ Date_parse (transcripts st) data = false ->
  Forall (fun t => ascending Date_parse t data) (transcripts st) ->
  last (panel_entries Date_parse
          (transcripts (onmessage Date_parse st (transcript (Some data)))))
  = Some data.
Proof.
  intros Hfresh Hlatest. simpl. unfold add_transcript. rewrite Hfresh.
  rewrite Array_slice_50_push. unfold panel_entries.
  rewrite Array_sort_snoc by (apply Forall_drop; exact Hlatest).
  rewrite Array_slice_15, drop_app_le by (rewrite length_app; simpl; lia).
  apply last_snoc.
Qed.

End PanelProperties.

Lemma panel_shows_latest_witness :
  let retained := transcripts Example.out_of_order in
  dated Runtime.Date_parse retained
  /\ StronglySorted (ascending Runtime.Date_parse)
       (panel_entries Runtime.Date_parse retained).
Proof.
  cbv zeta.
  assert (Hdated : dated Runtime.Date_parse (transcripts Example.out_of_order))
    by dated_by_computation.
  split; [exact Hdated |].
  apply (panel_shows_latest Runtime.Date_parse (transcripts Example.out_of_order) Hdated).
Defined.

Lemma new_fragment_shown_last_witness :
  let data := Example.entry 1 (Example.at_second 1) in
  (exists_ Runtime.Date_parse (transcripts Example.busy) data = false
   /\ Forall (fun t => ascending Runtime.Date_parse t data) (transcripts Example.busy))
  /\ last (panel_entries Runtime.Date_parse
             (transcripts (onmessage Runtime.Date_parse Example.busy
                             (transcript (Some data)))))
     = Some data.
Proof.
  cbv zeta.
  assert (Hfresh : exists_ Runtime.Date_parse (transcripts Example.busy)
                     (Example.entry 1 (Example.at_second 1)) = false)
    by (vm_compute; reflexivity).
  assert (Hlatest : Forall (fun t => ascending Runtime.Date_parse t
                                       (Example.entry 1 (Example.at_second 1)))
                      (transcripts Example.busy))
    by (repeat constructor; ascending_by_computation).
  split; [split; [exact Hfresh | exact Hlatest] |].
  apply (new_fragment_shown_last Runtime.Date_parse Example.busy
           (Example.entry 1 (Example.at_second 1)) Hfresh Hlatest).
Defined.

(** ** The banner of a cleared transcript *)

Section BannerProperties.

Variable Date_parse : string -> number.



(** X25: every message at which the handler raises the banner also
    empties the transcripts, so the panel shows the banner right away; the
    timer set last is the one of this message. *)
Theorem clearing_shows_banner
    (v : View) (now delay : Z) (message : WebSocketMessage)
    (activeCallIds : list string) :
  banner_delay message = Some delay ->
  transcripts (handled (react Date_parse v (message_arrives now message))) = []
  /\ transcript_panel Date_parse (react Date_parse v (message_arrives now message))
       activeCallIds
     = call_ended
  /\ last (timeouts (react Date_parse v (message_arrives now message)))
     = Some (now + delay).
Proof.
  intros Hdelay.
  assert (Hcleared : transcripts (onmessage Date_parse (handled v) message) = []).
  { destruct message as [received calls | [data|] | [data|] | [data|] | ];
      simpl in *; try discriminate.
    - destruct (call_over (CallStatusData.session data)); [reflexivity | discriminate].
    - destruct (truthy_string (CallRemovedData.call_id data));
        [reflexivity | discriminate].
    - reflexivity. }
  unfold transcript_panel. simpl. rewrite Hdelay. simpl. rewrite Hcleared. simpl.
  split; [reflexivity |]. split; [reflexivity |]. apply last_snoc.
Qed.

Lemma exists_nonempty (prev : list TranscriptEntry) (data : TranscriptEntry) :
  exists_ Date_parse prev data = true -> prev <> [].
Proof. intros H ->. discriminate. Qed.

(** X26: after a [transcript] message that carries a fragment the panel
    shows transcript lines, whether or not the banner is raised: a fragment
    is never hidden behind the banner. *)
Theorem fragment_not_hidden_by_banner
    (v : View) (now : Z) (data : TranscriptEntry) (activeCallIds : list string) :
  exists entries : list TranscriptEntry,
    transcript_panel Date_parse
      (react Date_parse v (message_arrives now (transcript (Some data))))
      activeCallIds
    = lines entries
    /\ entries <> [].
Proof.
  unfold transcript_panel. simpl.
  assert (Hlen : (0 < length (add_transcript Date_parse data (transcripts (handled v))))%nat).
  { unfold add_transcript.
    destruct (exists_ Date_parse (transcripts (handled v)) data) eqn:E.
    - apply exists_nonempty in E. destruct (transcripts (handled v)); [congruence | simpl; lia].
    - rewrite Array_slice_50_push, length_app. simpl. lia. }
  destruct (Z.ltb_spec 0 (Z.of_nat (length (add_transcript Date_parse data
                                               (transcripts (handled v))))));
    [|lia].
  eexists. split; [reflexivity |].
  intros Hnil. apply (f_equal length) in Hnil.
  unfold panel_entries, Array_slice in Hnil.
  rewrite length_drop, Array_sort_length in Hnil. simpl in Hnil. lia.
Qed.

End BannerProperties.


(** A timer set for an earlier clearing takes the banner of a later one
    down: when the first timer runs the banner is lowered, while the timer
    of the later clearing is still pending. *)
Example banner_taken_down_early :
  let events :=
    [message_arrives 0 transcripts_cleared;
     message_arrives 1900 (call_removed (Some (CallRemovedData.mk "c1")));
     timeout_runs 0] in
  react_all Runtime.Date_parse initialView events
  = {| handled := initialState; showClearMessage := false; timeouts := [4900] |}.
Proof. vm_compute. reflexivity. Qed.

Lemma clearing_shows_banner_witness :
  let v := {| handled := Example.busy; showClearMessage := false; timeouts := [] |} in
  let message := call_removed (Some (CallRemovedData.mk "c1")) in
  banner_delay message = Some 3000
  /\ transcript_panel Runtime.Date_parse
       (react Runtime.Date_parse v (message_arrives 0 message)) []
     = call_ended.
Proof.
  cbv zeta. split; [reflexivity |].
  apply (clearing_shows_banner Runtime.Date_parse
           {| handled := Example.busy; showClearMessage := false; timeouts := [] |}
           0 3000 (call_removed (Some (CallRemovedData.mk "c1"))) [] eq_refl).
Defined.
